(** * The drone scene of the 2D physics sandbox

    A shallow embedding of [experimental/2d_physics/scene_drone.cpp]: the
    scene's constructor, its control and spawning operations, the per-tick
    bookkeeping ([postStep], [updateVariables]) and the input handlers of the
    companion UI class ([SceneUi::step], [SceneUi::mousePressEvent],
    [SceneUi::render]).

    The scene drives a Box2D-family physics world through body handles.  The
    world is embedded as explicit state: a list of bodies addressed by their
    creation index, and a list of lights.  A call through a handle that does
    not address a body has no defined behaviour in the program, so every
    operation lives in the [option] monad and the theorems show that the
    operations succeed on well-formed scenes. *)

From Stdlib Require Import ZArith Floats.SpecFloat.
From stdpp Require Import base option list.

Set Default Goal Selector "!".
Open Scope Z_scope.

(** ** Single-precision scalars

    The program computes with C++ [float]: IEEE 754 binary32, embedded with
    the executable specification of the Standard Library at precision 24 and
    maximal exponent 128.  [QPointF] coordinates are binary64. *)

Module F32.

Definition prec : Z := 24.
Definition emax : Z := 128.

Definition float : Type := spec_float.
Definition double : Type := spec_float.

(** An [int] literal used where a [float] is expected. *)
Definition of_Z (n : Z) : float := binary_normalize prec emax n 0 false.

(** A decimal literal with suffix [f], given by its digits over a power of
    ten and rounded once: [0.02f] is [dec 2 100], [1.0f] is [dec 10 10]. *)
Definition dec (n d : Z) : float := SFdiv prec emax (of_Z n) (of_Z d).

Definition zero : float := of_Z 0.
Definition one : float := of_Z 1.

Definition opp : float -> float := SFopp.
Definition add : float -> float -> float := SFadd prec emax.
Definition sub : float -> float -> float := SFsub prec emax.
Definition mul : float -> float -> float := SFmul prec emax.

(** The conversion [float(d)] of a binary64 value: one rounding to nearest. *)
Definition of_double (d : double) : float :=
  match d with
  | S754_finite s m e => binary_normalize prec emax (cond_Zopp s (Zpos m)) e s
  | _ => d
  end.

(** A binary64 value made from an integer mantissa and a binary exponent. *)
Definition double_of (m e : Z) : double := binary_normalize 53 1024 m e false.

End F32.

Abbreviation float := F32.float.
Abbreviation double := F32.double.

(** ** Vectors, rotations and the engine's data *)

Record b2Vec2 := B2Vec2 { x : float; y : float }.

(** [b2Vec2::operator+=] *)
Definition b2Vec2_add (a b : b2Vec2) : b2Vec2 :=
  B2Vec2 (F32.add (x a) (x b)) (F32.add (y a) (y b)).

Definition b2Vec2_zero : b2Vec2 := B2Vec2 F32.zero F32.zero.

(** A rotation is stored as its sine and cosine. *)
Record b2Rot := B2Rot { rot_s : float; rot_c : float }.

Definition b2Rot_identity : b2Rot := B2Rot F32.zero F32.one.

(** The engine's rotation of a vector, [b2Mul] of a rotation and a vector:
    (c x - s y, s x + c y). *)
Definition b2Mul (q : b2Rot) (v : b2Vec2) : b2Vec2 :=
  B2Vec2 (F32.sub (F32.mul (rot_c q) (x v)) (F32.mul (rot_s q) (y v)))
         (F32.add (F32.mul (rot_s q) (x v)) (F32.mul (rot_c q) (y v))).

Inductive b2BodyType := b2_staticBody | b2_kinematicBody | b2_dynamicBody.

Global Instance b2BodyType_eq_dec : EqDecision b2BodyType.
Proof. solve_decision. Defined.

Record b2Color := B2Color { col_r : float; col_g : float; col_b : float }.

Record b2Material := B2Material {
  color : b2Color;
  shininess : float;
  emit_intensity : float
}.

Inductive b2Shape :=
| b2EdgeShape (v1 v2 : b2Vec2)
| b2CircleShape (m_radius : float)
| b2PolygonShape (m_vertices : list b2Vec2).

(** Modelled from the spec: [b2PolygonShape::SetAsBox(hx, hy)] (outside the
    scene's source file) makes the "box of fixed half-extents": the
    axis-aligned rectangle with corners ([-hx], [-hy]) and ([hx], [hy]),
    counter-clockwise from the lower left corner. *)
Definition SetAsBox (hx hy : float) : b2Shape :=
  b2PolygonShape [ B2Vec2 (F32.opp hx) (F32.opp hy); B2Vec2 hx (F32.opp hy);
                   B2Vec2 hx hy; B2Vec2 (F32.opp hx) hy ].

(** The fields of [b2FixtureDef] the scene reads or writes.  [fd_shape] is a
    pointer in the program; [None] is the null pointer. *)
Record b2FixtureDef := B2FixtureDef {
  fd_shape : option b2Shape;
  fd_density : float;
  fd_friction : float;
  fd_restitution : float;
  fd_material : b2Material
}.

Record b2Fixture := B2Fixture {
  m_shape : b2Shape;
  m_density : float;
  m_friction : float;
  m_restitution : float;
  m_material : b2Material
}.

(** The fields of [b2BodyDef] that decide what the scene's bodies start
    with.  No definition in the scene sets an angle, so every body is created
    at angle zero. *)
Record b2BodyDef := B2BodyDef {
  bd_type : b2BodyType;
  bd_position : b2Vec2;
  bd_linearVelocity : b2Vec2;
  bd_angularVelocity : float;
  bd_linearDamping : float;
  bd_angularDamping : float;
  bd_awake : bool;
  bd_gravityScale : float
}.

Record b2Body := B2Body {
  m_type : b2BodyType;
  m_xf_p : b2Vec2;
  m_xf_q : b2Rot;
  m_sweep_a : float;
  m_linearVelocity : b2Vec2;
  m_angularVelocity : float;
  m_linearDamping : float;
  m_angularDamping : float;
  m_gravityScale : float;
  m_force : b2Vec2;
  m_torque : float;
  m_awake : bool;
  m_sleepTime : float;
  m_fixtureList : list b2Fixture
}.

(** Bodies are addressed by their position in creation order. *)
Definition handle : Type := nat.

Record b2LightDef := B2LightDef {
  ld_body : handle;
  ld_color : b2Color;
  ld_intensity : float;
  ld_attenuation_distance : float;
  ld_position : b2Vec2
}.

Record b2World := B2World {
  m_gravity : b2Vec2;
  m_bodyList : list b2Body;
  m_lightList : list b2LightDef
}.

(** *** Field updates *)

Definition set_force (f : b2Vec2) (b : b2Body) : b2Body :=
  B2Body (m_type b) (m_xf_p b) (m_xf_q b) (m_sweep_a b) (m_linearVelocity b)
         (m_angularVelocity b) (m_linearDamping b) (m_angularDamping b)
         (m_gravityScale b) f (m_torque b) (m_awake b) (m_sleepTime b)
         (m_fixtureList b).

Definition set_torque (t : float) (b : b2Body) : b2Body :=
  B2Body (m_type b) (m_xf_p b) (m_xf_q b) (m_sweep_a b) (m_linearVelocity b)
         (m_angularVelocity b) (m_linearDamping b) (m_angularDamping b)
         (m_gravityScale b) (m_force b) t (m_awake b) (m_sleepTime b)
         (m_fixtureList b).

Definition set_fixtureList (l : list b2Fixture) (b : b2Body) : b2Body :=
  B2Body (m_type b) (m_xf_p b) (m_xf_q b) (m_sweep_a b) (m_linearVelocity b)
         (m_angularVelocity b) (m_linearDamping b) (m_angularDamping b)
         (m_gravityScale b) (m_force b) (m_torque b) (m_awake b)
         (m_sleepTime b) l.

Definition set_bodyList (l : list b2Body) (w : b2World) : b2World :=
  B2World (m_gravity w) l (m_lightList w).

(** ** The engine calls the scene makes *)

(** Modelled from the spec: the engine's default body definition
    ([b2BodyDef], declared outside the scene's source file).  A body is
    static unless the scene asks otherwise ("four static wall edges") and
    starts at "position zero, velocity zero, heading zero", awake, with the
    world's gravity applied at scale one. *)
Definition b2BodyDef_default : b2BodyDef :=
  {| bd_type := b2_staticBody;
     bd_position := b2Vec2_zero;
     bd_linearVelocity := b2Vec2_zero;
     bd_angularVelocity := F32.zero;
     bd_linearDamping := F32.zero;
     bd_angularDamping := F32.zero;
     bd_awake := true;
     bd_gravityScale := F32.one |}.

(** Modelled from the spec: the engine's body constructor (part of
    [b2World::CreateBody], outside the scene's source file): the body starts
    with the definition's type, position, velocities and damping, at angle
    zero, with no force or torque accumulated and no fixture. *)
Definition b2Body_new (bd : b2BodyDef) : b2Body :=
  {| m_type := bd_type bd;
     m_xf_p := bd_position bd;
     m_xf_q := b2Rot_identity;
     m_sweep_a := F32.zero;
     m_linearVelocity := bd_linearVelocity bd;
     m_angularVelocity := bd_angularVelocity bd;
     m_linearDamping := bd_linearDamping bd;
     m_angularDamping := bd_angularDamping bd;
     m_gravityScale := bd_gravityScale bd;
     m_force := b2Vec2_zero;
     m_torque := F32.zero;
     m_awake := bd_awake bd;
     m_sleepTime := F32.zero;
     m_fixtureList := [] |}.

(** Modelled from the spec: [b2World::CreateBody] (outside the scene's source
    file).  "The body is added to the world and persists indefinitely": the
    new body goes after the bodies already there and the call returns its
    handle. *)
Definition CreateBody (bd : b2BodyDef) (w : b2World) : handle * b2World :=
  (length (m_bodyList w), set_bodyList (m_bodyList w ++ [b2Body_new bd]) w).

(** The body a handle addresses, if any. *)
Definition body_at (w : b2World) (h : handle) : option b2Body :=
  m_bodyList w !! h.

(** A method call [h->f(...)] that changes the body behind the handle. *)
Definition on_body (h : handle) (f : b2Body -> option b2Body) (w : b2World)
  : option b2World :=
  b ← body_at w h;
  b' ← f b;
  Some (set_bodyList (<[h := b']> (m_bodyList w)) w).

(** Modelled from the spec: [b2Body::CreateFixture]
    (outside the scene's source file): the definition's shape is cloned and
    attached to the body with the definition's material and physical
    properties.  A definition without a shape cannot be attached. *)
Definition CreateFixture (fd : b2FixtureDef) (b : b2Body) : option b2Body :=
  sh ← fd_shape fd;
  Some (set_fixtureList
          (m_fixtureList b ++
             [ B2Fixture sh (fd_density fd) (fd_friction fd)
                 (fd_restitution fd) (fd_material fd) ]) b).

(** Modelled from the spec: [b2World::CreateLight] of the engine's lighting
    extension (outside the scene's source file): the light is added to the
    world, attached to the body its definition names. *)
Definition CreateLight (ld : b2LightDef) (w : b2World) : b2World :=
  B2World (m_gravity w) (m_bodyList w) (m_lightList w ++ [ld]).

(** The engine's [b2Body::SetAwake(true)]: a sleeping body is woken and its
    sleep timer restarted. *)
Definition SetAwake_true (b : b2Body) : b2Body :=
  if m_awake b then b
  else B2Body (m_type b) (m_xf_p b) (m_xf_q b) (m_sweep_a b)
         (m_linearVelocity b) (m_angularVelocity b) (m_linearDamping b)
         (m_angularDamping b) (m_gravityScale b) (m_force b) (m_torque b)
         true F32.zero (m_fixtureList b).

(** Modelled from the spec: [b2Body::ApplyForceToCenter(force, wake)]
    (outside the scene's source file).  The force acts on "the center of mass
    for the current step only (impulse-free, continuous force)": it is added
    to the force the body has accumulated for the step, and no velocity
    changes.  Only dynamic bodies take forces, and a sleeping body takes one
    only when the call wakes it. *)
Definition ApplyForceToCenter (force : b2Vec2) (wake : bool) (b : b2Body)
  : b2Body :=
  if decide (m_type b = b2_dynamicBody) then
    let b1 := if wake && negb (m_awake b) then SetAwake_true b else b in
    if m_awake b1 then set_force (b2Vec2_add (m_force b1) force) b1 else b1
  else b.

(** Modelled from the spec: [b2Body::ApplyTorque(torque, wake)] (outside the
    scene's source file): "applies a scalar torque to the drone for the
    current step", accumulated like a force. *)
Definition ApplyTorque (torque : float) (wake : bool) (b : b2Body) : b2Body :=
  if decide (m_type b = b2_dynamicBody) then
    let b1 := if wake && negb (m_awake b) then SetAwake_true b else b in
    if m_awake b1 then set_torque (F32.add (m_torque b1) torque) b1 else b1
  else b.

(** Modelled from the spec: the "position/velocity/angle queries" of a body
    ([b2Body::GetPosition], [GetLinearVelocity], [GetAngle], outside the
    scene's source file) report the body's current transform and velocity. *)
Definition GetPosition (b : b2Body) : b2Vec2 := m_xf_p b.
Definition GetLinearVelocity (b : b2Body) : b2Vec2 := m_linearVelocity b.
Definition GetAngle (b : b2Body) : float := m_sweep_a b.

(** Modelled from the spec: [b2Body::GetWorldVector] (outside the scene's
    source file) takes a vector "expressed in the drone's local frame" to
    the world frame: it is rotated by the body's rotation. *)
Definition GetWorldVector (b : b2Body) (v : b2Vec2) : b2Vec2 :=
  b2Mul (m_xf_q b) v.

(** Modelled from the spec: the pull of gravity on a body.  The engine's
    integrator is outside the scene's source file; bodies are "subject to
    gravity/damping per configured values", the world's gravity vector scaled
    by the body's gravity scale. *)
Definition gravity_acceleration (w : b2World) (b : b2Body) : b2Vec2 :=
  B2Vec2 (F32.mul (m_gravityScale b) (x (m_gravity w)))
         (F32.mul (m_gravityScale b) (y (m_gravity w))).

(** ** The scene's data *)

Record Config := Build_Config {
  drone_radius : float;
  move_force : float;
  rotate_torque : float
}.

Record SceneVariables := Build_SceneVariables {
  drone_x : float;
  drone_y : float;
  drone_vx : float;
  drone_vy : float;
  drone_dir : float
}.

Record Rect := Build_Rect {
  rect_x : float;
  rect_y : float;
  rect_width : float;
  rect_height : float
}.

(** The sensors keep the handle of the body they are mounted on and their
    constructor arguments. *)
Record Camera := Build_Camera {
  camera_body : handle;
  camera_fov : float;
  camera_near : float;
  camera_far : float;
  camera_resolution : Z
}.

Record TouchSensor := Build_TouchSensor {
  touch_body : handle;
  touch_receptors : Z
}.

Record Compass := Build_Compass { compass_body : handle }.

(** Modelled from the spec: the accelerometer class is outside the scene's
    source file.  [postStep] "updates the accelerometer sensor with elapsed
    time": the sensor is represented by the updates it has received, newest
    first, each with the elapsed time and the body as it was at that time. *)
Record Accelerometer := Build_Accelerometer {
  accel_body : handle;
  accel_updates : list (float * b2Body)
}.

Record Scene := Build_Scene {
  world_ : b2World;
  extents_ : Rect;
  config_ : Config;
  variables_ : SceneVariables;
  drone_ : handle;
  camera_ : Camera;
  touch_sensor_ : TouchSensor;
  accelerometer_ : Accelerometer;
  compass_ : Compass
}.

Definition set_world (w : b2World) (s : Scene) : Scene :=
  Build_Scene w (extents_ s) (config_ s) (variables_ s) (drone_ s) (camera_ s)
    (touch_sensor_ s) (accelerometer_ s) (compass_ s).

Definition set_variables (v : SceneVariables) (s : Scene) : Scene :=
  Build_Scene (world_ s) (extents_ s) (config_ s) v (drone_ s) (camera_ s)
    (touch_sensor_ s) (accelerometer_ s) (compass_ s).

Definition set_accelerometer (a : Accelerometer) (s : Scene) : Scene :=
  Build_Scene (world_ s) (extents_ s) (config_ s) (variables_ s) (drone_ s)
    (camera_ s) (touch_sensor_ s) a (compass_ s).

(** Modelled from the spec: the declaration of the variables struct is in the
    scene's header, outside the source file.  Before the first step the
    variables read "position zero, velocity zero, heading zero". *)
Definition SceneVariables_default : SceneVariables :=
  Build_SceneVariables F32.zero F32.zero F32.zero F32.zero F32.zero.

(** Modelled from the spec: [core::PropertySet::copyFrom] (outside the
    scene's source file).  The "recognized keys — drone radius (float), move
    force magnitude (float), rotate torque magnitude (float) — [are] copied
    in at construction". *)
Definition Config_copyFrom (src dst : Config) : Config :=
  {| drone_radius := drone_radius src;
     move_force := move_force src;
     rotate_torque := rotate_torque src |}.

(** Modelled from the spec: [Accelerometer::update(dt)] (outside the scene's
    source file) reads the body the sensor is mounted on and records the
    update in the sensor. *)
Definition Accelerometer_update (dt : float) (w : b2World) (a : Accelerometer)
  : option Accelerometer :=
  b ← body_at w (accel_body a);
  Some (Build_Accelerometer (accel_body a) ((dt, b) :: accel_updates a)).

(** ** Scene operations *)

Section DroneScene.

(** The defaults of the configuration struct and of the engine's fixture
    definition are declared in headers outside the scene's source file. *)
Variable Config_default : Config.
Variable b2FixtureDef_default : b2FixtureDef.

Definition with_shape (sh : b2Shape) (fd : b2FixtureDef) : b2FixtureDef :=
  B2FixtureDef (Some sh) (fd_density fd) (fd_friction fd)
    (fd_restitution fd) (fd_material fd).

(** Modelled from the spec: the base class constructor
    [phys::Scene(gravity, extents)] (outside the scene's source file), by
    which the scene "builds a physics world": an empty world with the given
    gravity, and the extents kept as they are. *)
Definition phys_Scene_new (gravity : b2Vec2) (extents : Rect)
  : b2World * Rect :=
  (B2World gravity [] [], extents).

Definition wall_fixture_def : b2FixtureDef :=
  {| fd_shape := fd_shape b2FixtureDef_default;
     fd_density := fd_density b2FixtureDef_default;
     fd_friction := F32.dec 10 10;
     fd_restitution := F32.dec 5 10;
     fd_material :=
       {| color := B2Color (F32.of_Z 1) (F32.of_Z 1) (F32.of_Z 0);
          shininess := shininess (fd_material b2FixtureDef_default);
          emit_intensity := F32.dec 1 10 |} |}.

Definition drone_body_def : b2BodyDef :=
  {| bd_type := b2_dynamicBody;
     bd_position := b2Vec2_zero;
     bd_linearVelocity := bd_linearVelocity b2BodyDef_default;
     bd_angularVelocity := bd_angularVelocity b2BodyDef_default;
     bd_linearDamping := F32.dec 100 10;
     bd_angularDamping := F32.dec 100 10;
     bd_awake := bd_awake b2BodyDef_default;
     bd_gravityScale := bd_gravityScale b2BodyDef_default |}.

Definition drone_fixture_def (radius : float) : b2FixtureDef :=
  {| fd_shape := Some (b2CircleShape radius);
     fd_density := F32.dec 1 10;
     fd_friction := F32.dec 10 10;
     fd_restitution := F32.dec 2 10;
     fd_material :=
       {| color := B2Color (F32.of_Z 0) (F32.of_Z 0) (F32.of_Z 1);
          shininess := shininess (fd_material b2FixtureDef_default);
          emit_intensity := F32.dec 5 10 |} |}.

Definition light_def (walls : handle) (px py : Z) : b2LightDef :=
  {| ld_body := walls;
     ld_color := B2Color (F32.of_Z 1) (F32.of_Z 1) (F32.of_Z 1);
     ld_intensity := F32.dec 20 10;
     ld_attenuation_distance := F32.dec 250 10;
     ld_position := B2Vec2 (F32.of_Z px) (F32.of_Z py) |}.

(** [Scene::Scene(config)]; a null [config] is [None] *)
Definition Scene_new (config : option Config) : option Scene :=
  let '(w, extents) :=
    phys_Scene_new (B2Vec2 (F32.of_Z 0) (F32.of_Z 0))
      (Build_Rect (F32.of_Z (-10)) (F32.of_Z (-10)) (F32.of_Z 20)
         (F32.of_Z 20)) in
  let config_ :=
    match config with
    | Some c => Config_copyFrom c Config_default
    | None => Config_default
    end in
  (* walls *)
  let '(walls, w) := CreateBody b2BodyDef_default w in
  let edge (ax ay bx by_ : Z) :=
    b2EdgeShape (B2Vec2 (F32.of_Z ax) (F32.of_Z ay))
                (B2Vec2 (F32.of_Z bx) (F32.of_Z by_)) in
  w ← on_body walls
        (CreateFixture (with_shape (edge (-10) (-10) 10 (-10)) wall_fixture_def)) w;
  w ← on_body walls
        (CreateFixture (with_shape (edge (-10) (-10) (-10) 10) wall_fixture_def)) w;
  w ← on_body walls
        (CreateFixture (with_shape (edge 10 (-10) 10 10) wall_fixture_def)) w;
  w ← on_body walls
        (CreateFixture (with_shape (edge (-10) 10 10 10) wall_fixture_def)) w;
  (* drone *)
  let '(drone, w) := CreateBody drone_body_def w in
  w ← on_body drone
        (CreateFixture (drone_fixture_def (drone_radius config_))) w;
  (* lights *)
  let w := CreateLight (light_def walls 9 (-9)) w in
  let w := CreateLight (light_def walls (-9) (-9)) w in
  (* sensors *)
  Some {| world_ := w;
          extents_ := extents;
          config_ := config_;
          variables_ := SceneVariables_default;
          drone_ := drone;
          camera_ :=
            Build_Camera drone (F32.of_Z 120) (F32.dec 1 10)
              (F32.dec 300 10) 512;
          touch_sensor_ := Build_TouchSensor drone 16;
          accelerometer_ := Build_Accelerometer drone [];
          compass_ := Build_Compass drone |}.

End DroneScene.

(** [Scene::updateVariables()] *)
Definition updateVariables (s : Scene) : option Scene :=
  b ← body_at (world_ s) (drone_ s);
  Some (set_variables
          {| drone_x := x (GetPosition b);
             drone_y := y (GetPosition b);
             drone_vx := x (GetLinearVelocity b);
             drone_vy := y (GetLinearVelocity b);
             drone_dir := GetAngle b |} s).

(** [Scene::postStep(float dt)] *)
Definition postStep (dt : float) (s : Scene) : option Scene :=
  a ← Accelerometer_update dt (world_ s) (accelerometer_ s);
  updateVariables (set_accelerometer a s).

(** [Scene::moveDrone(const b2Vec2& force)] *)
Definition moveDrone (force : b2Vec2) (s : Scene) : option Scene :=
  w ← on_body (drone_ s)
        (λ b, Some (ApplyForceToCenter (GetWorldVector b force) true b))
        (world_ s);
  Some (set_world w s).

(** [Scene::rotateDrone(float torque)] *)
Definition rotateDrone (torque : float) (s : Scene) : option Scene :=
  w ← on_body (drone_ s) (λ b, Some (ApplyTorque torque true b)) (world_ s);
  Some (set_world w s).

Definition balloon_body_def (x y : float) : b2BodyDef :=
  {| bd_type := b2_dynamicBody;
     bd_position := B2Vec2 x y;
     bd_linearVelocity := bd_linearVelocity b2BodyDef_default;
     bd_angularVelocity := bd_angularVelocity b2BodyDef_default;
     bd_linearDamping := F32.dec 10 10;
     bd_angularDamping := F32.dec 10 10;
     bd_awake := bd_awake b2BodyDef_default;
     bd_gravityScale := bd_gravityScale b2BodyDef_default |}.

Definition box_body_def (x y : float) : b2BodyDef :=
  {| bd_type := b2_dynamicBody;
     bd_position := B2Vec2 x y;
     bd_linearVelocity := bd_linearVelocity b2BodyDef_default;
     bd_angularVelocity := bd_angularVelocity b2BodyDef_default;
     bd_linearDamping := F32.dec 20 10;
     bd_angularDamping := F32.dec 20 10;
     bd_awake := bd_awake b2BodyDef_default;
     bd_gravityScale := bd_gravityScale b2BodyDef_default |}.

(** The fixture definitions of [addBalloon] and [addBox] set every field
    of the definition that the embedding keeps. *)
Definition balloon_fixture_def (radius : float) : b2FixtureDef :=
  {| fd_shape := Some (b2CircleShape radius);
     fd_density := F32.dec 2 100;
     fd_friction := F32.dec 10 10;
     fd_restitution := F32.dec 9 10;
     fd_material :=
       {| color := B2Color (F32.of_Z 1) (F32.of_Z 0) (F32.of_Z 0);
          shininess := F32.of_Z 10;
          emit_intensity := F32.dec 1 10 |} |}.

Definition box_fixture_def (sx sy : float) : b2FixtureDef :=
  {| fd_shape := Some (SetAsBox sx sy);
     fd_density := F32.dec 5 10;
     fd_friction := F32.dec 10 10;
     fd_restitution := F32.dec 5 10;
     fd_material :=
       {| color := B2Color (F32.of_Z 0) (F32.of_Z 1) (F32.of_Z 0);
          shininess := F32.of_Z 25;
          emit_intensity := F32.dec 1 10 |} |}.

(** [Scene::addBalloon(float x, float y, float radius)] *)
Definition addBalloon (x y radius : float) (s : Scene) : option Scene :=
  let '(body, w) := CreateBody (balloon_body_def x y) (world_ s) in
  w ← on_body body (CreateFixture (balloon_fixture_def radius)) w;
  Some (set_world w s).

(** [Scene::addBox(float x, float y, float sx, float sy)] *)
Definition addBox (x y sx sy : float) (s : Scene) : option Scene :=
  let '(body, w) := CreateBody (box_body_def x y) (world_ s) in
  w ← on_body body (CreateFixture (box_fixture_def sx sy)) w;
  Some (set_world w s).

(** ** The companion UI class

    [SceneUi] keeps a pointer to the scene; its handlers are embedded as
    operations on the scene they reach through that pointer. *)

(** The keys [SceneUi::step] polls. *)
Inductive Qt_Key := Key_Left | Key_Right | Key_Up | Key_Down | Key_Q | Key_W.

(** [Qt::MouseButtons] is a bit mask: [Qt::LeftButton] is bit 0 and
    [Qt::RightButton] bit 1. *)
Definition Qt_LeftButton : Z := 1.
Definition Qt_RightButton : Z := 2.

(** [(event->buttons() & button) != 0] *)
Definition button_held (buttons button : Z) : bool :=
  negb (Z.land buttons button =? 0).

Record QPointF := Build_QPointF { qx : double; qy : double }.

(** An [if] statement without [else] around a scene call. *)
Definition when (c : bool) (f : Scene -> option Scene) (s : Scene)
  : option Scene :=
  if c then f s else Some s.

(** [SceneUi::step()]; [keyPressed] is the held-state query of the canvas. *)
Definition SceneUi_step (keyPressed : Qt_Key -> bool) (s : Scene)
  : option Scene :=
  let move_force := move_force (config_ s) in
  let rotate_torque := rotate_torque (config_ s) in
  s ← when (keyPressed Key_Left)
        (moveDrone (B2Vec2 (F32.opp move_force) (F32.of_Z 0))) s;
  s ← when (keyPressed Key_Right)
        (moveDrone (B2Vec2 move_force (F32.of_Z 0))) s;
  s ← when (keyPressed Key_Up)
        (moveDrone (B2Vec2 (F32.of_Z 0) move_force)) s;
  s ← when (keyPressed Key_Down)
        (moveDrone (B2Vec2 (F32.of_Z 0) (F32.opp move_force))) s;
  s ← when (keyPressed Key_Q) (rotateDrone rotate_torque) s;
  when (keyPressed Key_W) (rotateDrone (F32.opp rotate_torque)) s.

(** [SceneUi::mousePressEvent(pos, event)];
    [buttons] is [event->buttons()]. *)
Definition mousePressEvent (pos : QPointF) (buttons : Z) (s : Scene)
  : option Scene :=
  let x := F32.of_double (qx pos) in
  let y := F32.of_double (qy pos) in
  s ← when (button_held buttons Qt_LeftButton)
        (addBalloon x y (F32.dec 8 10)) s;
  when (button_held buttons Qt_RightButton)
    (addBox x y (F32.dec 5 10) (F32.dec 20 10)) s.

Section SceneUi.

(** The paint surface belongs to the GUI toolkit.  What the two drawing
    routines put on it is computed from the values they read from the
    scene: the variables and the configured radius for the sprite, the
    camera's parameters and the pose of its body for the view cone. *)
Variable Painter : Type.
Variable paint_drone : SceneVariables -> Config -> Painter -> Painter.
Variable paint_camera : Camera -> b2Body -> Painter -> Painter.

(** [SceneUi::renderDrone] *)
Definition renderDrone (painter : Painter) (s : Scene) : Painter :=
  let vars := variables_ s in
  let config := config_ s in
  paint_drone vars config painter.

(** [SceneUi::renderCamera] *)
Definition renderCamera (painter : Painter) (camera : Camera) (s : Scene)
  : option Painter :=
  body ← body_at (world_ s) (camera_body camera);
  Some (paint_camera camera body painter).

(** [SceneUi::render(QPainter&, const QRectF&)] *)
Definition render (painter : Painter) (s : Scene) : option (Scene * Painter) :=
  painter ← renderCamera (renderDrone painter s) (camera_ s) s;
  Some (s, painter).

(** *** Operations as data

    One constructor per operation of [Scene] and [SceneUi], to speak about
    sequences of calls made by the host's frame loop. *)
Inductive Op :=
| OpPostStep (dt : float)
| OpMoveDrone (force : b2Vec2)
| OpRotateDrone (torque : float)
| OpAddBalloon (x y radius : float)
| OpAddBox (x y sx sy : float)
| OpRender
| OpStep (keyPressed : Qt_Key -> bool)
| OpMousePress (pos : QPointF) (buttons : Z).

Definition run_op (op : Op) (st : Scene * Painter) : option (Scene * Painter) :=
  let '(s, p) := st in
  match op with
  | OpPostStep dt => s' ← postStep dt s; Some (s', p)
  | OpMoveDrone force => s' ← moveDrone force s; Some (s', p)
  | OpRotateDrone torque => s' ← rotateDrone torque s; Some (s', p)
  | OpAddBalloon x y radius => s' ← addBalloon x y radius s; Some (s', p)
  | OpAddBox x y sx sy => s' ← addBox x y sx sy s; Some (s', p)
  | OpRender => render p s
  | OpStep keyPressed => s' ← SceneUi_step keyPressed s; Some (s', p)
  | OpMousePress pos buttons => s' ← mousePressEvent pos buttons s; Some (s', p)
  end.

Fixpoint run_ops (ops : list Op) (st : Scene * Painter)
  : option (Scene * Painter) :=
  match ops with
  | [] => Some st
  | op :: ops => st' ← run_op op st; run_ops ops st'
  end.

Definition is_postStep (op : Op) : bool :=
  match op with OpPostStep _ => true | _ => false end.

End SceneUi.


(** ** Well-formed scenes and what the variables are compared with *)

(** The drone handle addresses a dynamic body, and the sensors that the
    operations go through are mounted on it. *)
Definition Scene_wf (s : Scene) : bool :=
  match body_at (world_ s) (drone_ s) with
  | Some b => bool_decide (m_type b = b2_dynamicBody)
  | None => false
  end
  && bool_decide (camera_body (camera_ s) = drone_ s)
  && bool_decide (accel_body (accelerometer_ s) = drone_ s).

(** The position, linear velocity and angle the engine reports for a body,
    laid out as the derived variables. *)
Definition body_readings (b : b2Body) : SceneVariables :=
  {| drone_x := x (GetPosition b);
     drone_y := y (GetPosition b);
     drone_vx := x (GetLinearVelocity b);
     drone_vy := y (GetLinearVelocity b);
     drone_dir := GetAngle b |}.

Definition dynamic_body_count (w : b2World) : nat :=
  length (filter (λ b, m_type b = b2_dynamicBody) (m_bodyList w)).

(** The calls [SceneUi::step] makes on the scene, as data. *)
Inductive SceneCall :=
| CallMoveDrone (force : b2Vec2)
| CallRotateDrone (torque : float).

Definition run_call (c : SceneCall) (s : Scene) : option Scene :=
  match c with
  | CallMoveDrone force => moveDrone force s
  | CallRotateDrone torque => rotateDrone torque s
  end.

Fixpoint run_calls (cs : list SceneCall) (s : Scene) : option Scene :=
  match cs with
  | [] => Some s
  | c :: cs => s' ← run_call c s; run_calls cs s'
  end.

(** What the specification says a held key stands for. *)
Definition key_call (cfg : Config) (k : Qt_Key) : SceneCall :=
  match k with
  | Key_Left => CallMoveDrone (B2Vec2 (F32.opp (move_force cfg)) F32.zero)
  | Key_Right => CallMoveDrone (B2Vec2 (move_force cfg) F32.zero)
  | Key_Up => CallMoveDrone (B2Vec2 F32.zero (move_force cfg))
  | Key_Down => CallMoveDrone (B2Vec2 F32.zero (F32.opp (move_force cfg)))
  | Key_Q => CallRotateDrone (rotate_torque cfg)
  | Key_W => CallRotateDrone (F32.opp (rotate_torque cfg))
  end.

(** The calls of one frame: one per held key, in polling order. *)
Definition step_calls (keyPressed : Qt_Key -> bool) (cfg : Config)
  : list SceneCall :=
  key_call cfg <$>
    List.filter keyPressed
      [Key_Left; Key_Right; Key_Up; Key_Down; Key_Q; Key_W].

(** The forces and torques among a list of calls. *)
Definition call_forces (cs : list SceneCall) : list b2Vec2 :=
  omap (λ c, match c with CallMoveDrone f => Some f | _ => None end) cs.

Definition call_torques (cs : list SceneCall) : list float :=
  omap (λ c, match c with CallRotateDrone t => Some t | _ => None end) cs.

(** ** What relates a scene before and after an operation *)

(** What every scene operation keeps of a body: its type, the readings the
    variables are taken from, its frame of reference and its gravity scale. *)
Definition body_frame (b b' : b2Body) : Prop :=
  m_type b' = m_type b ∧ body_readings b' = body_readings b ∧
  m_xf_q b' = m_xf_q b ∧ m_gravityScale b' = m_gravityScale b.

Definition unit_gravityScale (b : b2Body) : Prop :=
  m_gravityScale b = F32.one.

(** [stable s s']: [s'] has the variables, configuration, extents, sensors
    and gravity of [s], every body of [s] is still there behind the same
    handle with the same frame, and the gravity scales are still one if they
    were. *)
Record stable (s s' : Scene) : Prop := Build_stable {
  stable_variables : variables_ s' = variables_ s;
  stable_config : config_ s' = config_ s;
  stable_extents : extents_ s' = extents_ s;
  stable_drone : drone_ s' = drone_ s;
  stable_camera : camera_ s' = camera_ s;
  stable_accelerometer : accelerometer_ s' = accelerometer_ s;
  stable_gravity : m_gravity (world_ s') = m_gravity (world_ s);
  stable_lights : m_lightList (world_ s') = m_lightList (world_ s);
  stable_bodies :
    ∀ h b, body_at (world_ s) h = Some b →
           ∃ b', body_at (world_ s') h = Some b' ∧ body_frame b b';
  stable_gravityScale :
    Forall unit_gravityScale (m_bodyList (world_ s)) →
    Forall unit_gravityScale (m_bodyList (world_ s'))
}.

(** A body spawned by a pointer press: dynamic, at the given position, with
    exactly one fixture of the given shape. *)
Definition spawned_at (px py : float) (sh : b2Shape) (b : b2Body) : Prop :=
  m_type b = b2_dynamicBody ∧ GetPosition b = B2Vec2 px py ∧
  m_shape <$> m_fixtureList b = [sh].

(** ** Concrete inputs

    A configuration, a default fixture definition, the scene built from
    them, a key state with Left and Q held, and the pointer position
    (3, -2). *)

Definition Config_example : Config :=
  Build_Config (F32.dec 5 10) (F32.of_Z 5) (F32.of_Z 1).

Definition b2FixtureDef_example : b2FixtureDef :=
  {| fd_shape := None;
     fd_density := F32.zero;
     fd_friction := F32.dec 2 10;
     fd_restitution := F32.zero;
     fd_material := B2Material (B2Color F32.zero F32.zero F32.zero)
                      F32.zero F32.zero |}.

Definition Scene_example : Scene :=
  Eval vm_compute in
    default
      (Build_Scene (B2World b2Vec2_zero [] [])
         (Build_Rect F32.zero F32.zero F32.zero F32.zero) Config_example
         SceneVariables_default 0%nat
         (Build_Camera 0%nat F32.zero F32.zero F32.zero 0)
         (Build_TouchSensor 0%nat 0) (Build_Accelerometer 0%nat [])
         (Build_Compass 0%nat))
      (Scene_new Config_example b2FixtureDef_example None).

Definition keys_example (k : Qt_Key) : bool :=
  match k with Key_Left | Key_Q => true | _ => false end.

Definition pos_example : QPointF :=
  Build_QPointF (F32.double_of 3 0) (F32.double_of (-2) 0).

(** A paint surface that records what was drawn on it, newest first. *)
Inductive PaintRecord :=
| DrawnDrone (vars : SceneVariables) (config : Config)
| DrawnCamera (camera : Camera) (body : b2Body).

Definition paint_drone_example (vars : SceneVariables) (config : Config)
  (p : list PaintRecord) : list PaintRecord :=
  DrawnDrone vars config :: p.

Definition paint_camera_example (camera : Camera) (body : b2Body)
  (p : list PaintRecord) : list PaintRecord :=
  DrawnCamera camera body :: p.

(** One frame after the tick: poll the keys, handle a press with both
    buttons held, push the drone, paint. *)
Definition ops_example : list Op :=
  [ OpStep keys_example; OpMousePress pos_example 3;
    OpMoveDrone (B2Vec2 (F32.of_Z 1) (F32.of_Z 2)); OpRotateDrone (F32.of_Z 1);
    OpAddBalloon (F32.of_Z 1) (F32.of_Z 1) (F32.dec 8 10);
    OpAddBox F32.zero (F32.of_Z 5) (F32.of_Z 1) (F32.of_Z 1); OpRender ].

(** ** A finer frame

    [stable] says what the variables depend on.  The relation below says
    what the operations can reach at all. *)

(** A body that has only been pushed: it differs from the body it was in
    the accumulated force and torque, the awake flag and the sleep timer at
    most. *)
Definition pushed (b b' : b2Body) : Prop :=
  b' = B2Body (m_type b) (m_xf_p b) (m_xf_q b) (m_sweep_a b)
         (m_linearVelocity b) (m_angularVelocity b) (m_linearDamping b)
         (m_angularDamping b) (m_gravityScale b) (m_force b') (m_torque b')
         (m_awake b') (m_sleepTime b') (m_fixtureList b).

(** [reach s s']: [s'] has the configuration, the extents, the drone
    handle, the camera, the touch sensor, the compass, the mounting of the
    accelerometer, the gravity and the lights of [s]; every body of [s] but
    the drone is behind its handle as it was, and the drone has only been
    pushed. *)
Record reach (s s' : Scene) : Prop := Build_reach {
  reach_config : config_ s' = config_ s;
  reach_extents : extents_ s' = extents_ s;
  reach_drone_ : drone_ s' = drone_ s;
  reach_camera : camera_ s' = camera_ s;
  reach_touch_sensor : touch_sensor_ s' = touch_sensor_ s;
  reach_compass : compass_ s' = compass_ s;
  reach_accel_body :
    accel_body (accelerometer_ s') = accel_body (accelerometer_ s);
  reach_gravity : m_gravity (world_ s') = m_gravity (world_ s);
  reach_lights : m_lightList (world_ s') = m_lightList (world_ s);
  reach_others :
    ∀ h b, h ≠ drone_ s → body_at (world_ s) h = Some b →
           body_at (world_ s') h = Some b;
  reach_drone :
    ∀ b, body_at (world_ s) (drone_ s) = Some b →
         ∃ b', body_at (world_ s') (drone_ s) = Some b' ∧ pushed b b'
}.

Definition body_count (s : Scene) : nat := length (m_bodyList (world_ s)).

(** The bodies an operation spawns. *)
Definition spawn_count (op : Op) : nat :=
  match op with
  | OpAddBalloon _ _ _ | OpAddBox _ _ _ _ => 1
  | OpMousePress _ buttons =>
      (if button_held buttons Qt_LeftButton then 1 else 0) +
      (if button_held buttons Qt_RightButton then 1 else 0)
  | _ => 0
  end%nat.

(** A drone that has gone to sleep with a force and a torque pending, to
    exercise the wake-up path of the control operations. *)
Definition Scene_asleep : Scene :=
  Eval vm_compute in
    set_world
      (set_bodyList
         (alter (λ b, B2Body (m_type b) (m_xf_p b) (m_xf_q b) (m_sweep_a b)
                        (m_linearVelocity b) (m_angularVelocity b)
                        (m_linearDamping b) (m_angularDamping b)
                        (m_gravityScale b)
                        (B2Vec2 (F32.of_Z 1) (F32.of_Z 2)) (F32.of_Z 3)
                        false (F32.dec 5 10) (m_fixtureList b))
            (drone_ Scene_example) (m_bodyList (world_ Scene_example)))
         (world_ Scene_example)) Scene_example.

(** A frame with its bookkeeping: the operations of [ops_example], then
    the tick's [postStep], then painting. *)
Definition frame_example : list Op :=
  ops_example ++ [OpPostStep (F32.dec 1 60); OpRender].

(** The scene as built after the engine has moved the drone: the body is
    at (3, -2) with velocity (1, -1), the variables still show what an
    earlier tick wrote, and the accelerometer has one update from then. *)
Definition Scene_moved : Scene :=
  Eval vm_compute in
    set_variables
      (Build_SceneVariables (F32.of_Z 1) (F32.of_Z 1) (F32.of_Z 2)
         (F32.of_Z 2) (F32.dec 5 10))
      (set_accelerometer
         (Build_Accelerometer (drone_ Scene_example)
            (from_option (λ b, [(F32.dec 1 30, b)]) []
               (body_at (world_ Scene_example) (drone_ Scene_example))))
         (set_world
            (set_bodyList
               (alter (λ b, B2Body (m_type b)
                              (B2Vec2 (F32.of_Z 3) (F32.of_Z (-2)))
                              (m_xf_q b) (m_sweep_a b)
                              (B2Vec2 (F32.of_Z 1) (F32.of_Z (-1)))
                              (m_angularVelocity b) (m_linearDamping b)
                              (m_angularDamping b) (m_gravityScale b)
                              (m_force b) (m_torque b) (m_awake b)
                              (m_sleepTime b) (m_fixtureList b))
                  (drone_ Scene_example) (m_bodyList (world_ Scene_example)))
               (world_ Scene_example)) Scene_example)).

(** ** Lemmas on the engine calls *)

Lemma body_frame_refl b : body_frame b b.
Proof. by repeat split. Qed.

Lemma body_frame_trans b1 b2 b3 :
  body_frame b1 b2 → body_frame b2 b3 → body_frame b1 b3.
Proof.
  intros (?&?&?&?) (?&?&?&?). repeat split; congruence.
Qed.

Lemma SetAwake_true_awake b : m_awake (SetAwake_true b) = true.
Proof. unfold SetAwake_true. by destruct (m_awake b) eqn:E. Qed.

Lemma SetAwake_true_frame b : body_frame b (SetAwake_true b).
Proof. unfold SetAwake_true. destruct (m_awake b); by repeat split. Qed.

Lemma SetAwake_true_force b : m_force (SetAwake_true b) = m_force b.
Proof. unfold SetAwake_true. by destruct (m_awake b). Qed.

Lemma SetAwake_true_torque b : m_torque (SetAwake_true b) = m_torque b.
Proof. unfold SetAwake_true. by destruct (m_awake b). Qed.

(** With [wake] set, a dynamic body ends up awake with the force added to
    what it had accumulated. *)
Lemma ApplyForceToCenter_dynamic force b :
  m_type b = b2_dynamicBody →
  ApplyForceToCenter force true b =
    set_force (b2Vec2_add (m_force b) force) (SetAwake_true b).
Proof.
  intros Hdyn. unfold ApplyForceToCenter.
  rewrite decide_True by done. cbn [andb].
  destruct (m_awake b) eqn:E; cbn [negb].
  - rewrite E. unfold SetAwake_true. by rewrite E.
  - by rewrite SetAwake_true_awake, SetAwake_true_force.
Qed.

Lemma ApplyTorque_dynamic torque b :
  m_type b = b2_dynamicBody →
  ApplyTorque torque true b =
    set_torque (F32.add (m_torque b) torque) (SetAwake_true b).
Proof.
  intros Hdyn. unfold ApplyTorque.
  rewrite decide_True by done. cbn [andb].
  destruct (m_awake b) eqn:E; cbn [negb].
  - rewrite E. unfold SetAwake_true. by rewrite E.
  - by rewrite SetAwake_true_awake, SetAwake_true_torque.
Qed.

Lemma ApplyForceToCenter_frame force wake b :
  body_frame b (ApplyForceToCenter force wake b).
Proof.
  unfold ApplyForceToCenter. case_decide; [|apply body_frame_refl].
  destruct (wake && negb (m_awake b)).
  - destruct (m_awake (SetAwake_true b)).
    + eapply body_frame_trans; [apply SetAwake_true_frame|by repeat split].
    + apply SetAwake_true_frame.
  - destruct (m_awake b); by repeat split.
Qed.

Lemma ApplyTorque_frame torque wake b :
  body_frame b (ApplyTorque torque wake b).
Proof.
  unfold ApplyTorque. case_decide; [|apply body_frame_refl].
  destruct (wake && negb (m_awake b)).
  - destruct (m_awake (SetAwake_true b)).
    + eapply body_frame_trans; [apply SetAwake_true_frame|by repeat split].
    + apply SetAwake_true_frame.
  - destruct (m_awake b); by repeat split.
Qed.

Lemma on_body_Some h f w b b' :
  body_at w h = Some b → f b = Some b' →
  on_body h f w = Some (set_bodyList (<[h := b']> (m_bodyList w)) w).
Proof. unfold on_body. intros -> . cbn. by intros ->. Qed.

(** The body just created is behind the handle [CreateBody] returns, and a
    fixture attached through that handle lands on it. *)
Lemma on_new_body bd f w b' :
  f (b2Body_new bd) = Some b' →
  on_body (CreateBody bd w).1 f (CreateBody bd w).2 =
    Some (set_bodyList (m_bodyList w ++ [b']) w).
Proof.
  intros Hf. cbn [CreateBody fst snd].
  erewrite on_body_Some; [| |exact Hf].
  - cbn. unfold set_bodyList. f_equal. f_equal.
    rewrite insert_app_r_alt by done.
    by rewrite Nat.sub_diag.
  - unfold body_at. cbn. by rewrite list_lookup_middle.
Qed.

(** ** The frame relation is a preorder that the operations respect *)

Lemma stable_refl s : stable s s.
Proof.
  split; try done. intros h b Hb. exists b. split; [done|apply body_frame_refl].
Qed.

Lemma stable_trans s1 s2 s3 : stable s1 s2 → stable s2 s3 → stable s1 s3.
Proof.
  intros [] []. split; try congruence; [|tauto].
  intros h b Hb.
  destruct (stable_bodies0 h b Hb) as (b2 & Hb2 & Hf2).
  destruct (stable_bodies1 h b2 Hb2) as (b3 & Hb3 & Hf3).
  exists b3. split; [done|]. by eapply body_frame_trans.
Qed.

(** Replacing a body by one with the same frame. *)
Lemma stable_insert s h b b' :
  body_at (world_ s) h = Some b → body_frame b b' →
  stable s (set_world (set_bodyList (<[h := b']> (m_bodyList (world_ s)))
                         (world_ s)) s).
Proof.
  intros Hb Hf. split; try done; cbn.
  - intros h0 b0 Hb0. unfold body_at in *. cbn.
    destruct (decide (h = h0)) as [<-|Hne].
    + exists b'. split.
      * apply list_lookup_insert_eq. by eapply lookup_lt_Some.
      * congruence.
    + exists b0. split; [|apply body_frame_refl].
      by rewrite list_lookup_insert_ne.
  - intros Hall. apply Forall_insert; [done|].
    unfold unit_gravityScale. destruct Hf as (_&_&_&->).
    unfold body_at in Hb. by eapply (Forall_lookup_1 _ _ _ _ Hall).
Qed.

(** Adding a body after the others. *)
Lemma stable_app s bnew :
  unit_gravityScale bnew →
  stable s (set_world (set_bodyList (m_bodyList (world_ s) ++ [bnew])
                         (world_ s)) s).
Proof.
  intros Hnew. split; try done; cbn.
  - intros h b Hb. exists b. split; [|apply body_frame_refl].
    unfold body_at in *. cbn. by apply lookup_app_l_Some.
  - intros Hall. apply Forall_app. split; [done|]. by constructor.
Qed.

Lemma stable_wf s s' : stable s s' → Scene_wf s = true → Scene_wf s' = true.
Proof.
  intros [] Hwf. unfold Scene_wf in *.
  rewrite stable_camera0, stable_accelerometer0, stable_drone0.
  destruct (body_at (world_ s) (drone_ s)) as [b|] eqn:Hb; [|done].
  destruct (stable_bodies0 _ _ Hb) as (b' & -> & Hty & _).
  by rewrite Hty.
Qed.

(** A well-formed scene has a dynamic body behind the drone handle. *)
Lemma wf_drone s :
  Scene_wf s = true →
  ∃ b, body_at (world_ s) (drone_ s) = Some b ∧ m_type b = b2_dynamicBody.
Proof.
  unfold Scene_wf. intros Hwf.
  destruct (body_at (world_ s) (drone_ s)) as [b|]; [|done].
  exists b. split; [done|].
  apply andb_prop in Hwf as [Hwf _]. apply andb_prop in Hwf as [Hwf _].
  by apply bool_decide_eq_true in Hwf.
Qed.

Lemma wf_camera s : Scene_wf s = true → camera_body (camera_ s) = drone_ s.
Proof.
  unfold Scene_wf. intros Hwf.
  apply andb_prop in Hwf as [Hwf _]. apply andb_prop in Hwf as [_ Hwf].
  by apply bool_decide_eq_true in Hwf.
Qed.

Lemma wf_accelerometer s :
  Scene_wf s = true → accel_body (accelerometer_ s) = drone_ s.
Proof.
  unfold Scene_wf. intros Hwf. apply andb_prop in Hwf as [_ Hwf].
  by apply bool_decide_eq_true in Hwf.
Qed.

Lemma wf_intro s b :
  body_at (world_ s) (drone_ s) = Some b → m_type b = b2_dynamicBody →
  camera_body (camera_ s) = drone_ s →
  accel_body (accelerometer_ s) = drone_ s →
  Scene_wf s = true.
Proof.
  intros Hb Hdyn Hcam Hacc. unfold Scene_wf. rewrite Hb.
  by rewrite !bool_decide_eq_true_2.
Qed.

(** *** The control operations *)

Lemma moveDrone_Some force s b :
  body_at (world_ s) (drone_ s) = Some b →
  moveDrone force s =
    Some (set_world
            (set_bodyList
               (<[drone_ s := ApplyForceToCenter (GetWorldVector b force) true b]>
                  (m_bodyList (world_ s))) (world_ s)) s).
Proof.
  intros Hb. unfold moveDrone.
  by erewrite on_body_Some by done.
Qed.

Lemma rotateDrone_Some torque s b :
  body_at (world_ s) (drone_ s) = Some b →
  rotateDrone torque s =
    Some (set_world
            (set_bodyList
               (<[drone_ s := ApplyTorque torque true b]>
                  (m_bodyList (world_ s))) (world_ s)) s).
Proof.
  intros Hb. unfold rotateDrone.
  by erewrite on_body_Some by done.
Qed.

Lemma moveDrone_stable force s :
  Scene_wf s = true → ∃ s', moveDrone force s = Some s' ∧ stable s s'.
Proof.
  intros Hwf. destruct (wf_drone s Hwf) as (b & Hb & _).
  eexists. split; [by apply moveDrone_Some|].
  eapply stable_insert; [done|apply ApplyForceToCenter_frame].
Qed.

Lemma rotateDrone_stable torque s :
  Scene_wf s = true → ∃ s', rotateDrone torque s = Some s' ∧ stable s s'.
Proof.
  intros Hwf. destruct (wf_drone s Hwf) as (b & Hb & _).
  eexists. split; [by apply rotateDrone_Some|].
  eapply stable_insert; [done|apply ApplyTorque_frame].
Qed.

(** The drone after [moveDrone]: awake, with the force rotated into the
    world frame added to what it had accumulated, and nothing else of it
    changed; in particular no velocity changes. *)
Lemma moveDrone_accumulates_force force s :
  Scene_wf s = true →
  ∃ b s',
    body_at (world_ s) (drone_ s) = Some b ∧
    moveDrone force s = Some s' ∧
    body_at (world_ s') (drone_ s') =
      Some (set_force (b2Vec2_add (m_force b) (b2Mul (m_xf_q b) force))
              (SetAwake_true b)) ∧
    stable s s'.
Proof.
  intros Hwf. destruct (wf_drone s Hwf) as (b & Hb & Hdyn).
  exists b. eexists. split; [done|]. split; [by apply moveDrone_Some|].
  split.
  - unfold body_at in *. cbn. rewrite list_lookup_insert_eq.
    + by rewrite ApplyForceToCenter_dynamic.
    + by eapply lookup_lt_Some.
  - eapply stable_insert; [done|apply ApplyForceToCenter_frame].
Qed.

(** *** The spawning operations *)

(** The balloon and the box as they are once their fixture is attached. *)
Lemma addBalloon_Some x y radius s :
  addBalloon x y radius s =
    Some (set_world
            (set_bodyList
               (m_bodyList (world_ s) ++
                  [set_fixtureList
                     [B2Fixture (b2CircleShape radius) (F32.dec 2 100)
                        (F32.dec 10 10) (F32.dec 9 10)
                        (fd_material (balloon_fixture_def radius))]
                     (b2Body_new (balloon_body_def x y))])
               (world_ s)) s).
Proof.
  unfold addBalloon.
  pose proof (on_new_body (balloon_body_def x y)
                (CreateFixture (balloon_fixture_def radius)) (world_ s)) as H.
  destruct (CreateBody (balloon_body_def x y) (world_ s)) as [body w].
  cbn [fst snd] in H. by erewrite H.
Qed.

Lemma addBox_Some x y sx sy s :
  addBox x y sx sy s =
    Some (set_world
            (set_bodyList
               (m_bodyList (world_ s) ++
                  [set_fixtureList
                     [B2Fixture (SetAsBox sx sy) (F32.dec 5 10)
                        (F32.dec 10 10) (F32.dec 5 10)
                        (fd_material (box_fixture_def sx sy))]
                     (b2Body_new (box_body_def x y))])
               (world_ s)) s).
Proof.
  unfold addBox.
  pose proof (on_new_body (box_body_def x y)
                (CreateFixture (box_fixture_def sx sy)) (world_ s)) as H.
  destruct (CreateBody (box_body_def x y) (world_ s)) as [body w].
  cbn [fst snd] in H. by erewrite H.
Qed.

Lemma addBalloon_stable x y radius s :
  ∃ s', addBalloon x y radius s = Some s' ∧ stable s s'.
Proof.
  eexists. split; [apply addBalloon_Some|]. by apply stable_app.
Qed.

Lemma addBox_stable x y sx sy s :
  ∃ s', addBox x y sx sy s = Some s' ∧ stable s s'.
Proof.
  eexists. split; [apply addBox_Some|]. by apply stable_app.
Qed.

Lemma rotateDrone_accumulates_torque torque s :
  Scene_wf s = true →
  ∃ b s',
    body_at (world_ s) (drone_ s) = Some b ∧
    rotateDrone torque s = Some s' ∧
    body_at (world_ s') (drone_ s') =
      Some (set_torque (F32.add (m_torque b) torque) (SetAwake_true b)) ∧
    stable s s'.
Proof.
  intros Hwf. destruct (wf_drone s Hwf) as (b & Hb & Hdyn).
  exists b. eexists. split; [done|]. split; [by apply rotateDrone_Some|].
  split.
  - unfold body_at in *. cbn. rewrite list_lookup_insert_eq.
    + by rewrite ApplyTorque_dynamic.
    + by eapply lookup_lt_Some.
  - eapply stable_insert; [done|apply ApplyTorque_frame].
Qed.

(** *** The per-tick bookkeeping *)

Lemma postStep_Some dt s b :
  body_at (world_ s) (drone_ s) = Some b →
  accel_body (accelerometer_ s) = drone_ s →
  postStep dt s =
    Some (set_variables (body_readings b)
            (set_accelerometer
               (Build_Accelerometer (drone_ s)
                  ((dt, b) :: accel_updates (accelerometer_ s))) s)).
Proof.
  intros Hb Hacc. unfold postStep, Accelerometer_update.
  rewrite Hacc, Hb. cbn [mbind option_bind]. unfold updateVariables.
  cbn [set_accelerometer world_ drone_]. by rewrite Hb.
Qed.

Lemma postStep_wf dt s s' :
  Scene_wf s = true → postStep dt s = Some s' → Scene_wf s' = true.
Proof.
  intros Hwf Hs'. destruct (wf_drone s Hwf) as (b & Hb & Hdyn).
  rewrite (postStep_Some dt s b Hb (wf_accelerometer s Hwf)) in Hs'.
  injection Hs' as <-.
  apply (wf_intro _ b); cbn; [done|done|by apply wf_camera|done].
Qed.

(** *** The input handlers *)

Lemma mbind_Some_r {A} (m : option A) : (m ≫= Some) = m.
Proof. by destruct m. Qed.

Ltac step_cbn := cbn -[moveDrone rotateDrone F32.opp F32.of_Z F32.zero].

(** [SceneUi::step] makes the calls of the held keys, in polling order. *)
Lemma SceneUi_step_calls keyPressed s :
  SceneUi_step keyPressed s = run_calls (step_calls keyPressed (config_ s)) s.
Proof.
  unfold SceneUi_step, step_calls. step_cbn.
  destruct (keyPressed Key_Left), (keyPressed Key_Right), (keyPressed Key_Up),
    (keyPressed Key_Down), (keyPressed Key_Q), (keyPressed Key_W);
    step_cbn;
    repeat first
      [ reflexivity
      | symmetry; apply mbind_Some_r
      | match goal with
        | |- (?m ≫= _) = (?n ≫= _) =>
            change n with m; destruct m; step_cbn
        end ].
Qed.

(** A sequence of control calls on a well-formed scene succeeds, and the
    drone ends up with every force, rotated into the world frame, and every
    torque added in call order to what it had accumulated. *)
Lemma run_calls_accumulate cs : ∀ s,
  Scene_wf s = true →
  ∃ b s' b',
    body_at (world_ s) (drone_ s) = Some b ∧
    run_calls cs s = Some s' ∧
    stable s s' ∧
    body_at (world_ s') (drone_ s') = Some b' ∧
    m_force b' =
      fold_left b2Vec2_add (b2Mul (m_xf_q b) <$> call_forces cs) (m_force b) ∧
    m_torque b' = fold_left F32.add (call_torques cs) (m_torque b).
Proof.
  induction cs as [|c cs IH]; intros s Hwf.
  - destruct (wf_drone s Hwf) as (b & Hb & _).
    exists b, s, b. split_and!; try done. apply stable_refl.
  - destruct c as [force|torque]; cbn [run_calls run_call].
    + destruct (moveDrone_accumulates_force force s Hwf)
        as (b & s1 & Hb & -> & Hb1 & Hst).
      destruct (IH s1 (stable_wf _ _ Hst Hwf))
        as (b1 & s' & b' & Hb1' & Hrun & Hst' & Hb' & Hforce & Htorque).
      rewrite Hb1 in Hb1'. injection Hb1' as <-.
      exists b, s', b'. cbn in Hforce, Htorque |- *.
      rewrite SetAwake_true_torque in Htorque.
      destruct (SetAwake_true_frame b) as (_ & _ & Hq & _).
      rewrite Hq in Hforce.
      split_and!; try done. by eapply stable_trans.
    + destruct (rotateDrone_accumulates_torque torque s Hwf)
        as (b & s1 & Hb & -> & Hb1 & Hst).
      destruct (IH s1 (stable_wf _ _ Hst Hwf))
        as (b1 & s' & b' & Hb1' & Hrun & Hst' & Hb' & Hforce & Htorque).
      rewrite Hb1 in Hb1'. injection Hb1' as <-.
      exists b, s', b'. cbn in Hforce, Htorque |- *.
      rewrite SetAwake_true_force in Hforce.
      destruct (SetAwake_true_frame b) as (_ & _ & Hq & _).
      rewrite Hq in Hforce.
      split_and!; try done. by eapply stable_trans.
Qed.

Lemma SceneUi_step_stable keyPressed s :
  Scene_wf s = true →
  ∃ s', SceneUi_step keyPressed s = Some s' ∧ stable s s'.
Proof.
  intros Hwf. rewrite SceneUi_step_calls.
  destruct (run_calls_accumulate (step_calls keyPressed (config_ s)) s Hwf)
    as (_ & s' & _ & _ & Hrun & Hst & _).
  by exists s'.
Qed.

Lemma mousePressEvent_stable pos buttons s :
  ∃ s', mousePressEvent pos buttons s = Some s' ∧ stable s s'.
Proof.
  unfold mousePressEvent, when.
  destruct (button_held buttons Qt_LeftButton),
    (button_held buttons Qt_RightButton).
  - rewrite addBalloon_Some. cbn [mbind option_bind]. rewrite addBox_Some.
    eexists. split; [done|].
    eapply stable_trans; by apply stable_app.
  - rewrite addBalloon_Some. eexists. split; [done|]. by apply stable_app.
  - cbn [mbind option_bind]. rewrite addBox_Some.
    eexists. split; [done|]. by apply stable_app.
  - eexists. split; [done|]. apply stable_refl.
Qed.

Section SceneUiFacts.

Context {Painter : Type}.
Variable paint_drone : SceneVariables -> Config -> Painter -> Painter.
Variable paint_camera : Camera -> b2Body -> Painter -> Painter.

Local Abbreviation run1 := (run_op Painter paint_drone paint_camera).
Local Abbreviation runs := (run_ops Painter paint_drone paint_camera).

(** Painting reads the scene and hands it back as it was. *)
Lemma render_Some p s :
  Scene_wf s = true →
  ∃ p', render Painter paint_drone paint_camera p s = Some (s, p').
Proof using Type.
  intros Hwf. destruct (wf_drone s Hwf) as (b & Hb & _).
  unfold render, renderCamera. rewrite (wf_camera s Hwf), Hb. cbn. eauto.
Qed.

(** Every operation but [postStep] succeeds on a well-formed scene and
    leaves a scene that is [stable] with respect to it. *)
Lemma run_op_stable op s p :
  Scene_wf s = true → is_postStep op = false →
  ∃ s' p', run1 op (s, p) = Some (s', p') ∧ stable s s'.
Proof using Type.
  intros Hwf Hop. destruct op; try done; cbn [run_op].
  - destruct (moveDrone_stable force s Hwf) as (s' & -> & Hst). cbn. eauto.
  - destruct (rotateDrone_stable torque s Hwf) as (s' & -> & Hst). cbn. eauto.
  - destruct (addBalloon_stable x0 y0 radius s) as (s' & -> & Hst). cbn. eauto.
  - destruct (addBox_stable x0 y0 sx sy s) as (s' & -> & Hst). cbn. eauto.
  - destruct (render_Some p s Hwf) as (p' & ->).
    exists s, p'. split; [done|apply stable_refl].
  - destruct (SceneUi_step_stable keyPressed s Hwf) as (s' & -> & Hst).
    cbn. eauto.
  - destruct (mousePressEvent_stable pos buttons s) as (s' & -> & Hst).
    cbn. eauto.
Qed.

Lemma run_ops_stable ops : ∀ s p,
  Scene_wf s = true → forallb (λ op, negb (is_postStep op)) ops = true →
  ∃ s' p', runs ops (s, p) = Some (s', p') ∧ stable s s'.
Proof using Type.
  induction ops as [|op ops IH]; intros s p Hwf Hops.
  - exists s, p. split; [done|apply stable_refl].
  - cbn in Hops. apply andb_prop in Hops as [Hop Hops].
    apply negb_true_iff in Hop.
    destruct (run_op_stable op s p Hwf Hop) as (s1 & p1 & Hrun1 & Hst1).
    destruct (IH s1 p1 (stable_wf _ _ Hst1 Hwf) Hops)
      as (s' & p' & Hrun & Hst).
    exists s', p'. split; [|by eapply stable_trans].
    cbn [run_ops]. by rewrite Hrun1.
Qed.

End SceneUiFacts.

(** ** The scene after construction *)

(** C1.  Immediately after construction, with or without a configuration
    object, the derived variables equal the readings of the drone body as it
    was created: position zero, velocity zero, heading zero. *)
Theorem Scene_new_variables Config_default b2FixtureDef_default config :
  ∃ s b,
    Scene_new Config_default b2FixtureDef_default config = Some s ∧
    body_at (world_ s) (drone_ s) = Some b ∧
    variables_ s = body_readings b ∧
    variables_ s =
      {| drone_x := F32.zero; drone_y := F32.zero; drone_vx := F32.zero;
         drone_vy := F32.zero; drone_dir := F32.zero |}.
Proof.
  destruct config as [c|]; do 2 eexists; split_and!; reflexivity.
Qed.

(** C7.  Construction builds exactly two bodies and two lights: a static
    body carrying the four wall edges, which are the sides of the square with
    corners (-10, -10) and (10, 10); the dynamic drone body with one circular
    fixture of the configured radius and linear and angular damping 10; two
    lights attached to the wall body; and the camera, the touch sensor, the
    accelerometer and the compass, all mounted on the drone body. *)
Theorem Scene_new_builds Config_default b2FixtureDef_default config :
  ∃ s walls drone light1 light2,
    Scene_new Config_default b2FixtureDef_default config = Some s ∧
    m_bodyList (world_ s) = [walls; drone] ∧
    m_type walls = b2_staticBody ∧
    m_shape <$> m_fixtureList walls =
      [ b2EdgeShape (B2Vec2 (F32.of_Z (-10)) (F32.of_Z (-10)))
                    (B2Vec2 (F32.of_Z 10) (F32.of_Z (-10)));
        b2EdgeShape (B2Vec2 (F32.of_Z (-10)) (F32.of_Z (-10)))
                    (B2Vec2 (F32.of_Z (-10)) (F32.of_Z 10));
        b2EdgeShape (B2Vec2 (F32.of_Z 10) (F32.of_Z (-10)))
                    (B2Vec2 (F32.of_Z 10) (F32.of_Z 10));
        b2EdgeShape (B2Vec2 (F32.of_Z (-10)) (F32.of_Z 10))
                    (B2Vec2 (F32.of_Z 10) (F32.of_Z 10)) ] ∧
    body_at (world_ s) (drone_ s) = Some drone ∧
    m_type drone = b2_dynamicBody ∧
    m_shape <$> m_fixtureList drone =
      [ b2CircleShape (drone_radius (config_ s)) ] ∧
    m_linearDamping drone = F32.of_Z 10 ∧
    m_angularDamping drone = F32.of_Z 10 ∧
    m_lightList (world_ s) = [light1; light2] ∧
    body_at (world_ s) (ld_body light1) = Some walls ∧
    body_at (world_ s) (ld_body light2) = Some walls ∧
    ld_position light1 = B2Vec2 (F32.of_Z 9) (F32.of_Z (-9)) ∧
    ld_position light2 = B2Vec2 (F32.of_Z (-9)) (F32.of_Z (-9)) ∧
    camera_body (camera_ s) = drone_ s ∧
    touch_body (touch_sensor_ s) = drone_ s ∧
    accel_body (accelerometer_ s) = drone_ s ∧
    compass_body (compass_ s) = drone_ s.
Proof.
  destruct config as [c|]; do 5 eexists; split_and!; reflexivity.
Qed.

(** C8.  A configuration object that is supplied has its drone radius, move
    force and rotate torque copied into the scene's configuration; without
    one (null) construction succeeds all the same and the scene's
    configuration keeps its defaults. *)
Theorem Scene_new_config Config_default b2FixtureDef_default :
  (∀ c, ∃ s,
      Scene_new Config_default b2FixtureDef_default (Some c) = Some s ∧
      drone_radius (config_ s) = drone_radius c ∧
      move_force (config_ s) = move_force c ∧
      rotate_torque (config_ s) = rotate_torque c) ∧
  (∃ s,
      Scene_new Config_default b2FixtureDef_default None = Some s ∧
      config_ s = Config_default).
Proof.
  split; [intros c|]; eexists; split_and!; reflexivity.
Qed.

(** The scene just built is well formed. *)
Lemma Scene_new_wf Config_default b2FixtureDef_default config s :
  Scene_new Config_default b2FixtureDef_default config = Some s →
  Scene_wf s = true.
Proof.
  destruct config as [c|]; intros [= <-]; reflexivity.
Qed.

(** ** The per-tick bookkeeping *)

(** C2.  For every [dt], in particular every [dt] that is not negative,
    [postStep dt] on a well-formed scene first updates the accelerometer
    with [dt], on the drone body as the world reports it at the time of the
    call, and then sets the five derived variables to exactly the position,
    the linear velocity and the angle of that body.  The world itself is not
    touched, so these are the body's current values after the call too. *)
Theorem postStep_updates dt s :
  Scene_wf s = true →
  ∃ b s',
    body_at (world_ s) (drone_ s) = Some b ∧
    postStep dt s = Some s' ∧
    Accelerometer_update dt (world_ s) (accelerometer_ s) =
      Some (accelerometer_ s') ∧
    accel_body (accelerometer_ s') = accel_body (accelerometer_ s) ∧
    accel_updates (accelerometer_ s') =
      (dt, b) :: accel_updates (accelerometer_ s) ∧
    updateVariables (set_accelerometer (accelerometer_ s') s) = Some s' ∧
    drone_x (variables_ s') = x (GetPosition b) ∧
    drone_y (variables_ s') = y (GetPosition b) ∧
    drone_vx (variables_ s') = x (GetLinearVelocity b) ∧
    drone_vy (variables_ s') = y (GetLinearVelocity b) ∧
    drone_dir (variables_ s') = GetAngle b ∧
    world_ s' = world_ s ∧
    body_at (world_ s') (drone_ s') = Some b.
Proof.
  intros Hwf. destruct (wf_drone s Hwf) as (b & Hb & _).
  pose proof (wf_accelerometer s Hwf) as Hacc.
  pose proof (postStep_Some dt s b Hb Hacc) as Hpost.
  exists b. eexists. split; [done|]. split; [exact Hpost|].
  cbn [accelerometer_ variables_ world_ drone_ set_variables
         set_accelerometer accel_body accel_updates body_readings
         drone_x drone_y drone_vx drone_vy drone_dir].
  split_and!; try done.
  - unfold Accelerometer_update. by rewrite Hacc, Hb.
  - unfold updateVariables. cbn [world_ drone_ set_accelerometer].
    by rewrite Hb.
Qed.

Lemma postStep_updates_witness :
  Scene_wf Scene_moved = true ∧
  ∃ b s',
    body_at (world_ Scene_moved) (drone_ Scene_moved) = Some b ∧
    postStep (F32.dec 1 60) Scene_moved = Some s' ∧
    Accelerometer_update (F32.dec 1 60) (world_ Scene_moved)
      (accelerometer_ Scene_moved) = Some (accelerometer_ s') ∧
    accel_body (accelerometer_ s') = accel_body (accelerometer_ Scene_moved) ∧
    accel_updates (accelerometer_ s') =
      (F32.dec 1 60, b) :: accel_updates (accelerometer_ Scene_moved) ∧
    updateVariables (set_accelerometer (accelerometer_ s') Scene_moved) =
      Some s' ∧
    drone_x (variables_ s') = x (GetPosition b) ∧
    drone_y (variables_ s') = y (GetPosition b) ∧
    drone_vx (variables_ s') = x (GetLinearVelocity b) ∧
    drone_vy (variables_ s') = y (GetLinearVelocity b) ∧
    drone_dir (variables_ s') = GetAngle b ∧
    world_ s' = world_ Scene_moved ∧
    body_at (world_ s') (drone_ s') = Some b.
Proof.
  split; [reflexivity|].
  apply (postStep_updates (F32.dec 1 60) Scene_moved). reflexivity.
Defined.

(** The drone moved by the engine to (3, -2) with velocity (1, -1), the
    variables still showing (1, 1, 2, 2, 1/2) from before and the
    accelerometer one earlier update: [postStep] writes (3, -2, 1, -1, 0)
    and the accelerometer holds two updates, the new one first. *)
Example postStep_scenario :
  (s' ← postStep (F32.dec 1 60) Scene_moved;
   Some (variables_ Scene_moved, variables_ s',
         fst <$> accel_updates (accelerometer_ s'))) =
  Some (Build_SceneVariables (F32.of_Z 1) (F32.of_Z 1) (F32.of_Z 2)
          (F32.of_Z 2) (F32.dec 5 10),
        Build_SceneVariables (F32.of_Z 3) (F32.of_Z (-2)) (F32.of_Z 1)
          (F32.of_Z (-1)) F32.zero,
        [F32.dec 1 60; F32.dec 1 30]).
Proof. vm_compute. reflexivity. Qed.

(** ** Spawning *)

Lemma dynamic_body_count_app w b :
  m_type b = b2_dynamicBody →
  dynamic_body_count (set_bodyList (m_bodyList w ++ [b]) w) =
    S (dynamic_body_count w).
Proof.
  intros Hdyn. unfold dynamic_body_count. cbn.
  rewrite filter_app, length_app, filter_cons_True by done.
  cbn. lia.
Qed.

(** C4.  For every [x], [y] and [r], [addBalloon x y r] leaves the bodies of
    the world as they were and adds exactly one body after them; the new
    body is dynamic and starts at position (x, y), so the world's dynamic
    body count grows by exactly one. *)
Theorem addBalloon_adds_one_body px py r s :
  ∃ s' b,
    addBalloon px py r s = Some s' ∧
    m_bodyList (world_ s') = m_bodyList (world_ s) ++ [b] ∧
    m_type b = b2_dynamicBody ∧
    GetPosition b = B2Vec2 px py ∧
    dynamic_body_count (world_ s') = S (dynamic_body_count (world_ s)).
Proof.
  do 2 eexists. split; [apply addBalloon_Some|].
  split_and!; try reflexivity.
  cbn [world_ set_world]. by apply dynamic_body_count_app.
Qed.

(** C5.  A pointer press at world position (x, y), the coordinates being
    taken in single precision as the handler does, keeps the bodies of the
    world and adds after them: one balloon of radius 0.8 at (x, y) when only
    the left button is held; one box of half-extents (0.5, 2.0) at (x, y)
    when only the right button is held; the balloon and then the box when
    both are held; nothing when neither is held. *)
Theorem mousePressEvent_spawns pos buttons s :
  let px := F32.of_double (qx pos) in
  let py := F32.of_double (qy pos) in
  let balloon := spawned_at px py (b2CircleShape (F32.dec 8 10)) in
  let box := spawned_at px py (SetAsBox (F32.dec 5 10) (F32.of_Z 2)) in
  ∃ s' new,
    mousePressEvent pos buttons s = Some s' ∧
    m_bodyList (world_ s') = m_bodyList (world_ s) ++ new ∧
    match button_held buttons Qt_LeftButton,
          button_held buttons Qt_RightButton with
    | true, true => ∃ b1 b2, new = [b1; b2] ∧ balloon b1 ∧ box b2
    | true, false => ∃ b1, new = [b1] ∧ balloon b1
    | false, true => ∃ b2, new = [b2] ∧ box b2
    | false, false => new = []
    end.
Proof.
  intros px py balloon box. unfold mousePressEvent, when.
  fold px py.
  destruct (button_held buttons Qt_LeftButton),
    (button_held buttons Qt_RightButton).
  - rewrite addBalloon_Some. cbn [mbind option_bind]. rewrite addBox_Some.
    do 2 eexists. split; [done|]. cbn [world_ set_world m_bodyList set_bodyList].
    split; [by rewrite <- app_assoc|].
    do 2 eexists. split; [done|]. by split.
  - rewrite addBalloon_Some.
    do 2 eexists. split; [done|]. split; [done|].
    eexists. split; [done|]. by split.
  - cbn [mbind option_bind]. rewrite addBox_Some.
    do 2 eexists. split; [done|]. split; [done|].
    eexists. split; [done|]. by split.
  - exists s, []. split; [done|]. split; [by rewrite app_nil_r|done].
Qed.

(** The scenario of the specification: a press at (3, -2) with both buttons
    held, on the scene as built, leaves four bodies, the last two being the
    balloon of radius 0.8 and the box of half-extents (0.5, 2.0), both
    at (3, -2). *)
Example mousePressEvent_scenario :
  (s' ← mousePressEvent pos_example 3 Scene_example;
   Some ((λ b, (GetPosition b, m_shape <$> m_fixtureList b)) <$>
           drop 2 (m_bodyList (world_ s')))) =
  Some [ (B2Vec2 (F32.of_Z 3) (F32.of_Z (-2)),
          [b2CircleShape (F32.dec 8 10)]);
         (B2Vec2 (F32.of_Z 3) (F32.of_Z (-2)),
          [SetAsBox (F32.dec 5 10) (F32.of_Z 2)]) ].
Proof. vm_compute. reflexivity. Qed.

(** ** Polling the keys *)

(** C6.  In every call of [SceneUi::step] each held key makes its call on
    the scene: Left, Right, Up and Down make [moveDrone] with the move force
    along the negative or positive x or y axis, Q and W make [rotateDrone]
    with the positive or negative rotate torque.  With several keys held
    every one of the calls is made, and the effects add up: the drone ends
    up with all the forces, rotated into the world frame, and all the torques
    added to what it had accumulated. *)
Theorem SceneUi_step_additive keyPressed s :
  Scene_wf s = true →
  let calls := step_calls keyPressed (config_ s) in
  SceneUi_step keyPressed s = run_calls calls s ∧
  calls =
    (if keyPressed Key_Left
     then [CallMoveDrone (B2Vec2 (F32.opp (move_force (config_ s))) F32.zero)]
     else []) ++
    (if keyPressed Key_Right
     then [CallMoveDrone (B2Vec2 (move_force (config_ s)) F32.zero)]
     else []) ++
    (if keyPressed Key_Up
     then [CallMoveDrone (B2Vec2 F32.zero (move_force (config_ s)))]
     else []) ++
    (if keyPressed Key_Down
     then [CallMoveDrone (B2Vec2 F32.zero (F32.opp (move_force (config_ s))))]
     else []) ++
    (if keyPressed Key_Q
     then [CallRotateDrone (rotate_torque (config_ s))]
     else []) ++
    (if keyPressed Key_W
     then [CallRotateDrone (F32.opp (rotate_torque (config_ s)))]
     else []) ∧
  ∃ b s' b',
    body_at (world_ s) (drone_ s) = Some b ∧
    SceneUi_step keyPressed s = Some s' ∧
    body_at (world_ s') (drone_ s') = Some b' ∧
    m_force b' =
      fold_left b2Vec2_add (b2Mul (m_xf_q b) <$> call_forces calls)
        (m_force b) ∧
    m_torque b' = fold_left F32.add (call_torques calls) (m_torque b).
Proof.
  intros Hwf calls. split; [apply SceneUi_step_calls|]. split.
  - subst calls. unfold step_calls. cbn [List.filter].
    by destruct (keyPressed Key_Left), (keyPressed Key_Right),
      (keyPressed Key_Up), (keyPressed Key_Down), (keyPressed Key_Q),
      (keyPressed Key_W).
  - rewrite SceneUi_step_calls. fold calls.
    destruct (run_calls_accumulate calls s Hwf)
      as (b & s' & b' & Hb & Hrun & _ & Hb' & Hforce & Htorque).
    by exists b, s', b'.
Qed.

Lemma SceneUi_step_additive_witness :
  Scene_wf Scene_example = true ∧
  let calls := step_calls keys_example (config_ Scene_example) in
  SceneUi_step keys_example Scene_example = run_calls calls Scene_example ∧
  calls =
    (if keys_example Key_Left
     then [CallMoveDrone
             (B2Vec2 (F32.opp (move_force (config_ Scene_example))) F32.zero)]
     else []) ++
    (if keys_example Key_Right
     then [CallMoveDrone (B2Vec2 (move_force (config_ Scene_example)) F32.zero)]
     else []) ++
    (if keys_example Key_Up
     then [CallMoveDrone (B2Vec2 F32.zero (move_force (config_ Scene_example)))]
     else []) ++
    (if keys_example Key_Down
     then [CallMoveDrone
             (B2Vec2 F32.zero (F32.opp (move_force (config_ Scene_example))))]
     else []) ++
    (if keys_example Key_Q
     then [CallRotateDrone (rotate_torque (config_ Scene_example))]
     else []) ++
    (if keys_example Key_W
     then [CallRotateDrone (F32.opp (rotate_torque (config_ Scene_example)))]
     else []) ∧
  ∃ b s' b',
    body_at (world_ Scene_example) (drone_ Scene_example) = Some b ∧
    SceneUi_step keys_example Scene_example = Some s' ∧
    body_at (world_ s') (drone_ s') = Some b' ∧
    m_force b' =
      fold_left b2Vec2_add (b2Mul (m_xf_q b) <$> call_forces calls)
        (m_force b) ∧
    m_torque b' = fold_left F32.add (call_torques calls) (m_torque b).
Proof.
  split; [reflexivity|].
  apply (SceneUi_step_additive keys_example Scene_example). reflexivity.
Defined.

(** With Left and Q held on the scene as built, the drone accumulates the
    force (-5, 0) and the torque 1. *)
Example SceneUi_step_scenario :
  (s' ← SceneUi_step keys_example Scene_example;
   b ← body_at (world_ s') (drone_ s');
   Some (m_force b, m_torque b, m_linearVelocity b)) =
  Some (B2Vec2 (F32.of_Z (-5)) F32.zero, F32.of_Z 1, b2Vec2_zero).
Proof. vm_compute. reflexivity. Qed.

(** ** Who writes the variables, and gravity *)

Lemma gravity_acceleration_zero w b :
  m_gravity w = B2Vec2 F32.zero F32.zero → unit_gravityScale b →
  gravity_acceleration w b = B2Vec2 F32.zero F32.zero.
Proof.
  unfold gravity_acceleration, unit_gravityScale. by intros -> ->.
Qed.

Section SceneUiClaims.

Context {Painter : Type}.
Variable paint_drone : SceneVariables -> Config -> Painter -> Painter.
Variable paint_camera : Camera -> b2Body -> Painter -> Painter.

Local Abbreviation run1 := (run_op Painter paint_drone paint_camera).
Local Abbreviation runs := (run_ops Painter paint_drone paint_camera).

(** Every operation, [postStep] included, succeeds on a well-formed scene
    and keeps it well formed, with the gravity vector, the extents and the
    unit gravity scales it had. *)
Lemma run_op_gravity op s p :
  Scene_wf s = true →
  ∃ s' p',
    run1 op (s, p) = Some (s', p') ∧ Scene_wf s' = true ∧
    m_gravity (world_ s') = m_gravity (world_ s) ∧
    extents_ s' = extents_ s ∧
    (Forall unit_gravityScale (m_bodyList (world_ s)) →
     Forall unit_gravityScale (m_bodyList (world_ s'))).
Proof using Type.
  intros Hwf. destruct (is_postStep op) eqn:Hop.
  - destruct op; try done. cbn [run_op].
    destruct (wf_drone s Hwf) as (b & Hb & _).
    pose proof (postStep_Some dt s b Hb (wf_accelerometer s Hwf)) as Hpost.
    rewrite Hpost. cbn [mbind option_bind].
    do 2 eexists. split; [done|]. split; [by eapply postStep_wf|done].
  - destruct (run_op_stable paint_drone paint_camera op s p Hwf Hop)
      as (s' & p' & Hrun & Hst).
    exists s', p'. split; [done|]. split; [by eapply stable_wf|].
    by destruct Hst.
Qed.

Lemma run_ops_gravity ops : ∀ s p,
  Scene_wf s = true →
  ∃ s' p',
    runs ops (s, p) = Some (s', p') ∧ Scene_wf s' = true ∧
    m_gravity (world_ s') = m_gravity (world_ s) ∧
    extents_ s' = extents_ s ∧
    (Forall unit_gravityScale (m_bodyList (world_ s)) →
     Forall unit_gravityScale (m_bodyList (world_ s'))).
Proof using Type.
  induction ops as [|op ops IH]; intros s p Hwf.
  - by exists s, p.
  - destruct (run_op_gravity op s p Hwf)
      as (s1 & p1 & Hrun1 & Hwf1 & Hg1 & He1 & Hs1).
    destruct (IH s1 p1 Hwf1) as (s' & p' & Hrun & Hwf' & Hg & He & Hs).
    exists s', p'. cbn [run_ops]. rewrite Hrun1. cbn [mbind option_bind].
    split_and!; [done|done|congruence|congruence|tauto].
Qed.

(** C9.  The derived variables are written by [postStep] only.  On a
    well-formed scene every sequence of the other operations ([moveDrone],
    [rotateDrone], [addBalloon], [addBox], [render], [step],
    [mousePressEvent]) succeeds and leaves the variables as they were; so
    after a [postStep] and any such sequence the variables still hold the
    readings of the drone body that this [postStep] took. *)
Theorem variables_written_by_postStep_only ops s p dt :
  Scene_wf s = true →
  forallb (λ op, negb (is_postStep op)) ops = true →
  (∃ s' p', runs ops (s, p) = Some (s', p') ∧ variables_ s' = variables_ s) ∧
  (∃ b s1 s2 p2,
      body_at (world_ s) (drone_ s) = Some b ∧
      postStep dt s = Some s1 ∧
      variables_ s1 = body_readings b ∧
      runs ops (s1, p) = Some (s2, p2) ∧
      variables_ s2 = body_readings b).
Proof using Type.
  intros Hwf Hops. split.
  - destruct (run_ops_stable paint_drone paint_camera ops s p Hwf Hops)
      as (s' & p' & Hrun & Hst).
    exists s', p'. split; [done|]. by destruct Hst.
  - destruct (wf_drone s Hwf) as (b & Hb & _).
    pose proof (postStep_Some dt s b Hb (wf_accelerometer s Hwf)) as Hpost.
    pose proof (postStep_wf dt s _ Hwf Hpost) as Hwf1.
    destruct (run_ops_stable paint_drone paint_camera ops _ p Hwf1 Hops)
      as (s2 & p2 & Hrun & Hst).
    exists b. do 3 eexists. split; [done|]. split; [exact Hpost|].
    split; [done|]. split; [exact Hrun|]. by destruct Hst.
Qed.

(** C10.  The world is made with the gravity vector (0, 0) and the extents
    (-10, -10, 20, 20).  No operation of the scene or of its UI changes
    either, and every body has gravity scale one: whatever the operations
    run since construction, the pull of gravity on every body of the world,
    spawned ones included, is zero. *)
Theorem no_gravity Config_default b2FixtureDef_default config ops p :
  ∃ s0 s p',
    Scene_new Config_default b2FixtureDef_default config = Some s0 ∧
    m_gravity (world_ s0) = B2Vec2 F32.zero F32.zero ∧
    extents_ s0 =
      Build_Rect (F32.of_Z (-10)) (F32.of_Z (-10)) (F32.of_Z 20)
        (F32.of_Z 20) ∧
    runs ops (s0, p) = Some (s, p') ∧
    m_gravity (world_ s) = B2Vec2 F32.zero F32.zero ∧
    extents_ s = extents_ s0 ∧
    ∀ h b, body_at (world_ s) h = Some b →
           gravity_acceleration (world_ s) b = B2Vec2 F32.zero F32.zero.
Proof using Type.
  assert (∃ s0, Scene_new Config_default b2FixtureDef_default config = Some s0 ∧
                m_gravity (world_ s0) = B2Vec2 F32.zero F32.zero ∧
                extents_ s0 =
                  Build_Rect (F32.of_Z (-10)) (F32.of_Z (-10)) (F32.of_Z 20)
                    (F32.of_Z 20) ∧
                Forall unit_gravityScale (m_bodyList (world_ s0)))
    as (s0 & Hnew & Hg0 & He0 & Hs0).
  { destruct config as [c|]; eexists; split_and!; try reflexivity;
      by repeat constructor. }
  destruct (run_ops_gravity ops s0 p (Scene_new_wf _ _ _ _ Hnew))
    as (s & p' & Hrun & _ & Hg & He & Hs).
  exists s0, s, p'. split_and!; try done; [congruence|].
  intros h b Hb. apply gravity_acceleration_zero; [congruence|].
  unfold body_at in Hb. by eapply (Forall_lookup_1 _ _ _ _ (Hs Hs0)).
Qed.

End SceneUiClaims.

Lemma variables_written_by_postStep_only_witness :
  Scene_wf Scene_example = true ∧
  forallb (λ op, negb (is_postStep op)) ops_example = true ∧
  (∃ s' p',
      run_ops _ paint_drone_example paint_camera_example ops_example
        (Scene_example, []) = Some (s', p') ∧
      variables_ s' = variables_ Scene_example) ∧
  (∃ b s1 s2 p2,
      body_at (world_ Scene_example) (drone_ Scene_example) = Some b ∧
      postStep (F32.dec 1 60) Scene_example = Some s1 ∧
      variables_ s1 = body_readings b ∧
      run_ops _ paint_drone_example paint_camera_example ops_example
        (s1, []) = Some (s2, p2) ∧
      variables_ s2 = body_readings b).
Proof.
  split; [reflexivity|]. split; [reflexivity|].
  apply (variables_written_by_postStep_only paint_drone_example
           paint_camera_example ops_example Scene_example [] (F32.dec 1 60));
    reflexivity.
Defined.

(** ** The literals as bits

    [0.8f] is 0x3F4CCCCD, and narrowing the binary64 value nearest to 0.1
    gives [0.1f]. *)
Example literal_0_8 : F32.dec 8 10 = S754_finite false 13421773 (-24).
Proof. reflexivity. Qed.

Example of_double_0_1 :
  F32.of_double (SFdiv 53 1024 (F32.double_of 1 0) (F32.double_of 10 0)) =
  F32.dec 1 10.
Proof. reflexivity. Qed.

(** ** Further properties: what the operations can reach *)

Lemma pushed_refl b : pushed b b.
Proof. by destruct b. Qed.

Lemma pushed_trans b1 b2 b3 : pushed b1 b2 → pushed b2 b3 → pushed b1 b3.
Proof.
  destruct b1, b2, b3. unfold pushed. cbn. intros [= -> -> -> -> -> -> -> -> -> ->].
  by intros [= -> -> -> -> -> -> -> -> -> ->].
Qed.

Lemma SetAwake_true_pushed b : pushed b (SetAwake_true b).
Proof. destruct b as [? ? ? ? ? ? ? ? ? ? ? [] ? ?]; reflexivity. Qed.

Lemma ApplyForceToCenter_pushed force wake b :
  pushed b (ApplyForceToCenter force wake b).
Proof.
  destruct b as [[] ? ? ? ? ? ? ? ? ? ? [] ? ?], wake; reflexivity.
Qed.

Lemma ApplyTorque_pushed torque wake b :
  pushed b (ApplyTorque torque wake b).
Proof.
  destruct b as [[] ? ? ? ? ? ? ? ? ? ? [] ? ?], wake; reflexivity.
Qed.

(** The two pushes write different accumulators, so their order does not
    matter; a push does not turn the body. *)
Lemma Apply_commute force torque b :
  ApplyTorque torque true (ApplyForceToCenter force true b) =
  ApplyForceToCenter force true (ApplyTorque torque true b).
Proof.
  destruct b as [[] ? ? ? ? ? ? ? ? ? ? [] ? ?]; reflexivity.
Qed.

Lemma ApplyTorque_GetWorldVector torque wake b v :
  GetWorldVector (ApplyTorque torque wake b) v = GetWorldVector b v.
Proof.
  unfold GetWorldVector. by destruct (ApplyTorque_frame torque wake b) as (_&_&->&_).
Qed.

Lemma reach_refl s : reach s s.
Proof.
  split; try done. intros b Hb. exists b. split; [done|apply pushed_refl].
Qed.

Lemma reach_trans s1 s2 s3 : reach s1 s2 → reach s2 s3 → reach s1 s3.
Proof.
  intros H12 H23. destruct H12, H23. split; try congruence.
  - intros h b Hne Hb. apply reach_others1; [congruence|]. by apply reach_others0.
  - intros b Hb. destruct (reach_drone0 b Hb) as (b2 & Hb2 & Hp2).
    rewrite <- reach_drone_0 in Hb2.
    destruct (reach_drone1 b2 Hb2) as (b3 & Hb3 & Hp3).
    exists b3. split; [congruence|]. by eapply pushed_trans.
Qed.

Lemma reach_insert s b b' :
  body_at (world_ s) (drone_ s) = Some b → pushed b b' →
  reach s (set_world (set_bodyList (<[drone_ s := b']> (m_bodyList (world_ s)))
                        (world_ s)) s).
Proof.
  intros Hb Hp. split; try done; cbn.
  - intros h b0 Hne Hb0. unfold body_at in *. cbn.
    by rewrite list_lookup_insert_ne.
  - intros b0 Hb0. exists b'. unfold body_at in *. cbn. split.
    + apply list_lookup_insert_eq. by eapply lookup_lt_Some.
    + congruence.
Qed.

Lemma reach_app s bnew :
  reach s (set_world (set_bodyList (m_bodyList (world_ s) ++ [bnew])
                        (world_ s)) s).
Proof.
  split; try done; cbn.
  - intros h b _ Hb. unfold body_at in *. cbn. by apply lookup_app_l_Some.
  - intros b Hb. exists b. split; [|apply pushed_refl].
    unfold body_at in *. cbn. by apply lookup_app_l_Some.
Qed.

(** What each operation reaches, with the number of bodies it leaves. *)
Lemma moveDrone_reach force s :
  Scene_wf s = true →
  ∃ s', moveDrone force s = Some s' ∧ reach s s' ∧ Scene_wf s' = true ∧
        body_count s' = body_count s.
Proof.
  intros Hwf. destruct (wf_drone s Hwf) as (b & Hb & _).
  eexists. split; [by apply moveDrone_Some|]. split_and!.
  - eapply reach_insert; [done|apply ApplyForceToCenter_pushed].
  - eapply stable_wf; [|done].
    eapply stable_insert; [done|apply ApplyForceToCenter_frame].
  - unfold body_count. cbn. apply length_insert.
Qed.

Lemma rotateDrone_reach torque s :
  Scene_wf s = true →
  ∃ s', rotateDrone torque s = Some s' ∧ reach s s' ∧ Scene_wf s' = true ∧
        body_count s' = body_count s.
Proof.
  intros Hwf. destruct (wf_drone s Hwf) as (b & Hb & _).
  eexists. split; [by apply rotateDrone_Some|]. split_and!.
  - eapply reach_insert; [done|apply ApplyTorque_pushed].
  - eapply stable_wf; [|done].
    eapply stable_insert; [done|apply ApplyTorque_frame].
  - unfold body_count. cbn. apply length_insert.
Qed.

Lemma run_calls_reach cs : ∀ s,
  Scene_wf s = true →
  ∃ s', run_calls cs s = Some s' ∧ reach s s' ∧ Scene_wf s' = true ∧
        body_count s' = body_count s.
Proof.
  induction cs as [|c cs IH]; intros s Hwf.
  - exists s. split_and!; try done. apply reach_refl.
  - assert (∃ s1, run_call c s = Some s1 ∧ reach s s1 ∧ Scene_wf s1 = true ∧
                  body_count s1 = body_count s) as (s1 & Hc & Hr1 & Hwf1 & Hn1).
    { destruct c; [by apply moveDrone_reach|by apply rotateDrone_reach]. }
    destruct (IH s1 Hwf1) as (s' & Hrun & Hr & Hwf' & Hn).
    exists s'. cbn [run_calls]. rewrite Hc. cbn [mbind option_bind].
    split_and!; [done|by eapply reach_trans|done|congruence].
Qed.

Lemma addBalloon_reach x y radius s :
  ∃ s', addBalloon x y radius s = Some s' ∧ reach s s' ∧
        (Scene_wf s = true → Scene_wf s' = true) ∧
        body_count s' = S (body_count s).
Proof.
  eexists. split; [apply addBalloon_Some|]. split_and!.
  - apply reach_app.
  - apply stable_wf. by apply stable_app.
  - unfold body_count. cbn. rewrite length_app. cbn. lia.
Qed.

Lemma addBox_reach x y sx sy s :
  ∃ s', addBox x y sx sy s = Some s' ∧ reach s s' ∧
        (Scene_wf s = true → Scene_wf s' = true) ∧
        body_count s' = S (body_count s).
Proof.
  eexists. split; [apply addBox_Some|]. split_and!.
  - apply reach_app.
  - apply stable_wf. by apply stable_app.
  - unfold body_count. cbn. rewrite length_app. cbn. lia.
Qed.

Lemma mousePressEvent_reach pos buttons s :
  ∃ s', mousePressEvent pos buttons s = Some s' ∧ reach s s' ∧
        (Scene_wf s = true → Scene_wf s' = true) ∧
        body_count s' =
          (body_count s + spawn_count (OpMousePress pos buttons))%nat.
Proof.
  unfold mousePressEvent, when, spawn_count.
  destruct (button_held buttons Qt_LeftButton),
    (button_held buttons Qt_RightButton).
  - destruct (addBalloon_reach (F32.of_double (qx pos))
                (F32.of_double (qy pos)) (F32.dec 8 10) s)
      as (s1 & -> & Hr1 & Hwf1 & Hn1).
    cbn [mbind option_bind].
    destruct (addBox_reach (F32.of_double (qx pos))
                (F32.of_double (qy pos)) (F32.dec 5 10) (F32.dec 20 10) s1)
      as (s2 & -> & Hr2 & Hwf2 & Hn2).
    exists s2. split_and!; [done|by eapply reach_trans|tauto|lia].
  - destruct (addBalloon_reach (F32.of_double (qx pos))
                (F32.of_double (qy pos)) (F32.dec 8 10) s)
      as (s1 & -> & Hr1 & Hwf1 & Hn1).
    exists s1. split_and!; [done|done|done|lia].
  - cbn [mbind option_bind].
    destruct (addBox_reach (F32.of_double (qx pos))
                (F32.of_double (qy pos)) (F32.dec 5 10) (F32.dec 20 10) s)
      as (s2 & -> & Hr2 & Hwf2 & Hn2).
    exists s2. split_and!; [done|done|done|lia].
  - exists s. split_and!; [done|apply reach_refl|done|lia].
Qed.

Lemma postStep_reach dt s :
  Scene_wf s = true →
  ∃ s', postStep dt s = Some s' ∧ reach s s' ∧ Scene_wf s' = true ∧
        body_count s' = body_count s.
Proof.
  intros Hwf. destruct (wf_drone s Hwf) as (b & Hb & _).
  pose proof (postStep_Some dt s b Hb (wf_accelerometer s Hwf)) as Hpost.
  eexists. split; [exact Hpost|]. split_and!.
  - split; try done; cbn.
    + symmetry. by apply wf_accelerometer.
    + intros b0 Hb0. exists b0. split; [done|apply pushed_refl].
  - by eapply postStep_wf.
  - done.
Qed.

Section SceneUiReach.

Context {Painter : Type}.
Variable paint_drone : SceneVariables -> Config -> Painter -> Painter.
Variable paint_camera : Camera -> b2Body -> Painter -> Painter.

Local Abbreviation run1 := (run_op Painter paint_drone paint_camera).
Local Abbreviation runs := (run_ops Painter paint_drone paint_camera).

Lemma run_op_reach op s p :
  Scene_wf s = true →
  ∃ s' p',
    run1 op (s, p) = Some (s', p') ∧ reach s s' ∧ Scene_wf s' = true ∧
    body_count s' = (body_count s + spawn_count op)%nat.
Proof using Type.
  intros Hwf. destruct op; cbn [run_op spawn_count].
  - destruct (postStep_reach dt s Hwf) as (s' & -> & Hr & Hwf' & Hn).
    exists s', p. split_and!; [done|done|done|lia].
  - destruct (moveDrone_reach force s Hwf) as (s' & -> & Hr & Hwf' & Hn).
    exists s', p. split_and!; [done|done|done|lia].
  - destruct (rotateDrone_reach torque s Hwf) as (s' & -> & Hr & Hwf' & Hn).
    exists s', p. split_and!; [done|done|done|lia].
  - destruct (addBalloon_reach x0 y0 radius s) as (s' & -> & Hr & Hwf' & Hn).
    exists s', p. split_and!; [done|done|tauto|lia].
  - destruct (addBox_reach x0 y0 sx sy s) as (s' & -> & Hr & Hwf' & Hn).
    exists s', p. split_and!; [done|done|tauto|lia].
  - destruct (render_Some paint_drone paint_camera p s Hwf) as (p' & ->).
    exists s, p'. split_and!; [done|apply reach_refl|done|lia].
  - rewrite SceneUi_step_calls.
    destruct (run_calls_reach (step_calls keyPressed (config_ s)) s Hwf)
      as (s' & -> & Hr & Hwf' & Hn).
    exists s', p. split_and!; [done|done|done|lia].
  - destruct (mousePressEvent_reach pos buttons s)
      as (s' & -> & Hr & Hwf' & Hn).
    exists s', p. split_and!; [done|done|tauto|done].
Qed.

Lemma run_ops_reach ops : ∀ s p,
  Scene_wf s = true →
  ∃ s' p',
    runs ops (s, p) = Some (s', p') ∧ reach s s' ∧ Scene_wf s' = true ∧
    body_count s' = (body_count s + sum_list (spawn_count <$> ops))%nat.
Proof using Type.
  induction ops as [|op ops IH]; intros s p Hwf.
  - exists s, p. split_and!; [done|apply reach_refl|done|cbn; lia].
  - destruct (run_op_reach op s p Hwf) as (s1 & p1 & Hrun1 & Hr1 & Hwf1 & Hn1).
    destruct (IH s1 p1 Hwf1) as (s' & p' & Hrun & Hr & Hwf' & Hn).
    exists s', p'. cbn [run_ops]. rewrite Hrun1. cbn [mbind option_bind].
    split_and!; [done|by eapply reach_trans|done|].
    cbn [fmap list_fmap sum_list sum_list_with]. cbn in Hn |- *. lia.
Qed.

End SceneUiReach.

Lemma pushed_readings b b' : pushed b b' → body_readings b' = body_readings b.
Proof. unfold pushed. by intros ->. Qed.

(** ** Further properties: single operations *)

(** X1.  [addBox x y sx sy] changes nothing of the scene but the body list
    of the world, to which it adds one body after the others: dynamic, at
    (x, y), at rest and unturned, with linear and angular damping 2 and one
    fixture, the rectangle with corners (-sx, -sy), (sx, -sy), (sx, sy) and
    (-sx, sy). *)
Theorem addBox_adds_one_box px py sx sy s :
  ∃ s' b,
    addBox px py sx sy s = Some s' ∧
    s' = set_world (set_bodyList (m_bodyList (world_ s) ++ [b]) (world_ s)) s ∧
    m_type b = b2_dynamicBody ∧
    body_readings b =
      {| drone_x := px; drone_y := py; drone_vx := F32.zero;
         drone_vy := F32.zero; drone_dir := F32.zero |} ∧
    m_angularVelocity b = F32.zero ∧
    m_linearDamping b = F32.of_Z 2 ∧
    m_angularDamping b = F32.of_Z 2 ∧
    m_shape <$> m_fixtureList b =
      [ b2PolygonShape
          [ B2Vec2 (F32.opp sx) (F32.opp sy); B2Vec2 sx (F32.opp sy);
            B2Vec2 sx sy; B2Vec2 (F32.opp sx) sy ] ] ∧
    dynamic_body_count (world_ s') = S (dynamic_body_count (world_ s)).
Proof.
  do 2 eexists. split; [apply addBox_Some|].
  split; [reflexivity|]. split_and!; try reflexivity.
  cbn [world_ set_world]. by apply dynamic_body_count_app.
Qed.

(** X2.  On a well-formed scene [moveDrone f] replaces the drone body by
    one that has only been pushed: its accumulated force grows by [f]
    rotated by the body's rotation, (c fx - s fy, s fx + c fy); the torque
    is as it was; the body is awake afterwards, and its sleep timer restarts
    if it was asleep.  Nothing else of the scene changes. *)
Theorem moveDrone_pushes_drone force s :
  Scene_wf s = true →
  ∃ b b',
    body_at (world_ s) (drone_ s) = Some b ∧
    moveDrone force s =
      Some (set_world
              (set_bodyList (<[drone_ s := b']> (m_bodyList (world_ s)))
                 (world_ s)) s) ∧
    pushed b b' ∧
    m_force b' =
      B2Vec2
        (F32.add (x (m_force b))
           (F32.sub (F32.mul (rot_c (m_xf_q b)) (x force))
                    (F32.mul (rot_s (m_xf_q b)) (y force))))
        (F32.add (y (m_force b))
           (F32.add (F32.mul (rot_s (m_xf_q b)) (x force))
                    (F32.mul (rot_c (m_xf_q b)) (y force)))) ∧
    m_torque b' = m_torque b ∧
    m_awake b' = true ∧
    m_sleepTime b' = (if m_awake b then m_sleepTime b else F32.zero).
Proof.
  intros Hwf. destruct (wf_drone s Hwf) as (b & Hb & Hdyn).
  exists b, (ApplyForceToCenter (GetWorldVector b force) true b).
  split; [done|]. split; [by apply moveDrone_Some|].
  split; [apply ApplyForceToCenter_pushed|].
  rewrite ApplyForceToCenter_dynamic by done.
  destruct b as [? ? ? ? ? ? ? ? ? ? ? [] ? ?]; by split_and!.
Qed.

Lemma moveDrone_pushes_drone_witness :
  Scene_wf Scene_asleep = true ∧
  ∃ b b',
    body_at (world_ Scene_asleep) (drone_ Scene_asleep) = Some b ∧
    moveDrone (B2Vec2 (F32.of_Z 5) (F32.of_Z (-1))) Scene_asleep =
      Some (set_world
              (set_bodyList
                 (<[drone_ Scene_asleep := b']>
                    (m_bodyList (world_ Scene_asleep)))
                 (world_ Scene_asleep)) Scene_asleep) ∧
    pushed b b' ∧
    m_force b' =
      B2Vec2
        (F32.add (x (m_force b))
           (F32.sub (F32.mul (rot_c (m_xf_q b)) (F32.of_Z 5))
                    (F32.mul (rot_s (m_xf_q b)) (F32.of_Z (-1)))))
        (F32.add (y (m_force b))
           (F32.add (F32.mul (rot_s (m_xf_q b)) (F32.of_Z 5))
                    (F32.mul (rot_c (m_xf_q b)) (F32.of_Z (-1))))) ∧
    m_torque b' = m_torque b ∧
    m_awake b' = true ∧
    m_sleepTime b' = (if m_awake b then m_sleepTime b else F32.zero).
Proof.
  split; [reflexivity|].
  apply (moveDrone_pushes_drone (B2Vec2 (F32.of_Z 5) (F32.of_Z (-1)))
           Scene_asleep).
  reflexivity.
Defined.

(** The sleeping drone with force (1, 2) and torque 3 pending, pushed by
    (5, -1) at angle zero: awake, force (6, 1), torque 3, timer restarted. *)
Example moveDrone_asleep_scenario :
  (s' ← moveDrone (B2Vec2 (F32.of_Z 5) (F32.of_Z (-1))) Scene_asleep;
   b ← body_at (world_ s') (drone_ s');
   Some (m_force b, m_torque b, m_awake b, m_sleepTime b)) =
  Some (B2Vec2 (F32.of_Z 6) (F32.of_Z 1), F32.of_Z 3, true, F32.zero).
Proof. vm_compute. reflexivity. Qed.

(** X3.  On a well-formed scene [rotateDrone t] replaces the drone body by
    one that has only been pushed: its accumulated torque grows by [t], the
    force is as it was, the body is awake afterwards and its sleep timer
    restarts if it was asleep.  Nothing else of the scene changes. *)
Theorem rotateDrone_pushes_drone torque s :
  Scene_wf s = true →
  ∃ b b',
    body_at (world_ s) (drone_ s) = Some b ∧
    rotateDrone torque s =
      Some (set_world
              (set_bodyList (<[drone_ s := b']> (m_bodyList (world_ s)))
                 (world_ s)) s) ∧
    pushed b b' ∧
    m_torque b' = F32.add (m_torque b) torque ∧
    m_force b' = m_force b ∧
    m_awake b' = true ∧
    m_sleepTime b' = (if m_awake b then m_sleepTime b else F32.zero).
Proof.
  intros Hwf. destruct (wf_drone s Hwf) as (b & Hb & Hdyn).
  exists b, (ApplyTorque torque true b).
  split; [done|]. split; [by apply rotateDrone_Some|].
  split; [apply ApplyTorque_pushed|].
  rewrite ApplyTorque_dynamic by done.
  destruct b as [? ? ? ? ? ? ? ? ? ? ? [] ? ?]; by split_and!.
Qed.

Lemma rotateDrone_pushes_drone_witness :
  Scene_wf Scene_asleep = true ∧
  ∃ b b',
    body_at (world_ Scene_asleep) (drone_ Scene_asleep) = Some b ∧
    rotateDrone (F32.of_Z (-1)) Scene_asleep =
      Some (set_world
              (set_bodyList
                 (<[drone_ Scene_asleep := b']>
                    (m_bodyList (world_ Scene_asleep)))
                 (world_ Scene_asleep)) Scene_asleep) ∧
    pushed b b' ∧
    m_torque b' = F32.add (m_torque b) (F32.of_Z (-1)) ∧
    m_force b' = m_force b ∧
    m_awake b' = true ∧
    m_sleepTime b' = (if m_awake b then m_sleepTime b else F32.zero).
Proof.
  split; [reflexivity|].
  apply (rotateDrone_pushes_drone (F32.of_Z (-1)) Scene_asleep).
  reflexivity.
Defined.

(** ** Further properties: how the operations compose *)

(** X4.  A force and a torque on the drone can be applied in either
    order: [moveDrone] then [rotateDrone] gives the scene that [rotateDrone]
    then [moveDrone] gives. *)
Theorem moveDrone_rotateDrone_commute force torque s :
  (moveDrone force s ≫= rotateDrone torque) =
  (rotateDrone torque s ≫= moveDrone force).
Proof.
  destruct (body_at (world_ s) (drone_ s)) as [b|] eqn:Hb.
  - pose proof (lookup_lt_Some _ _ _ Hb) as Hlt.
    rewrite (moveDrone_Some force s b Hb), (rotateDrone_Some torque s b Hb).
    cbn [mbind option_bind].
    erewrite rotateDrone_Some, moveDrone_Some;
      [|unfold body_at; cbn; by apply list_lookup_insert_eq..].
    cbn [world_ drone_ set_world m_bodyList set_bodyList].
    rewrite !list_insert_insert_eq.
    by rewrite Apply_commute, ApplyTorque_GetWorldVector.
  - unfold moveDrone, rotateDrone, on_body. by rewrite Hb.
Qed.

(** A control call on a scene that has just got a new body: the call lands
    on the drone, before the new body. *)
Lemma run_call_after_spawn c s b bnew :
  body_at (world_ s) (drone_ s) = Some b →
  run_call c (set_world (set_bodyList (m_bodyList (world_ s) ++ [bnew])
                           (world_ s)) s) =
  (s' ← run_call c s;
   Some (set_world (set_bodyList (m_bodyList (world_ s') ++ [bnew])
                      (world_ s')) s')).
Proof.
  intros Hb. pose proof (lookup_lt_Some _ _ _ Hb) as Hlt.
  assert (body_at (world_ (set_world (set_bodyList
            (m_bodyList (world_ s) ++ [bnew]) (world_ s)) s))
            (drone_ s) = Some b) as Hb'.
  { unfold body_at in *. cbn. by apply lookup_app_l_Some. }
  destruct c as [force|torque]; cbn [run_call].
  - rewrite (moveDrone_Some force s b Hb). cbn [mbind option_bind].
    erewrite moveDrone_Some by exact Hb'.
    cbn [world_ drone_ set_world m_bodyList set_bodyList m_gravity m_lightList].
    by rewrite insert_app_l.
  - rewrite (rotateDrone_Some torque s b Hb). cbn [mbind option_bind].
    erewrite rotateDrone_Some by exact Hb'.
    cbn [world_ drone_ set_world m_bodyList set_bodyList m_gravity m_lightList].
    by rewrite insert_app_l.
Qed.

(** X5.  On a well-formed scene spawning and pushing commute: a balloon or
    a box added before a [moveDrone] or [rotateDrone] call gives the scene
    it gives when added after the call. *)
Theorem spawn_control_commute c px py radius sx sy s :
  Scene_wf s = true →
  (addBalloon px py radius s ≫= run_call c) =
    (run_call c s ≫= addBalloon px py radius) ∧
  (addBox px py sx sy s ≫= run_call c) =
    (run_call c s ≫= addBox px py sx sy).
Proof.
  intros Hwf. destruct (wf_drone s Hwf) as (b & Hb & _).
  split.
  - rewrite addBalloon_Some. cbn [mbind option_bind].
    rewrite (run_call_after_spawn c s b _ Hb).
    destruct (run_call c s) as [s'|]; [|done].
    cbn [mbind option_bind]. by rewrite addBalloon_Some.
  - rewrite addBox_Some. cbn [mbind option_bind].
    rewrite (run_call_after_spawn c s b _ Hb).
    destruct (run_call c s) as [s'|]; [|done].
    cbn [mbind option_bind]. by rewrite addBox_Some.
Qed.

Lemma spawn_control_commute_witness :
  Scene_wf Scene_example = true ∧
  (addBalloon (F32.of_Z 3) (F32.of_Z (-2)) (F32.dec 8 10) Scene_example
     ≫= run_call (CallMoveDrone (B2Vec2 (F32.of_Z 5) F32.zero))) =
    (run_call (CallMoveDrone (B2Vec2 (F32.of_Z 5) F32.zero)) Scene_example
       ≫= addBalloon (F32.of_Z 3) (F32.of_Z (-2)) (F32.dec 8 10)) ∧
  (addBox (F32.of_Z 3) (F32.of_Z (-2)) (F32.dec 5 10) (F32.of_Z 2)
     Scene_example
     ≫= run_call (CallMoveDrone (B2Vec2 (F32.of_Z 5) F32.zero))) =
    (run_call (CallMoveDrone (B2Vec2 (F32.of_Z 5) F32.zero)) Scene_example
       ≫= addBox (F32.of_Z 3) (F32.of_Z (-2)) (F32.dec 5 10) (F32.of_Z 2)).
Proof.
  split; [reflexivity|].
  apply (spawn_control_commute (CallMoveDrone (B2Vec2 (F32.of_Z 5) F32.zero))
           (F32.of_Z 3) (F32.of_Z (-2)) (F32.dec 8 10) (F32.dec 5 10)
           (F32.of_Z 2) Scene_example).
  reflexivity.
Defined.

(** ** Further properties: the button mask *)

Lemma land_1_testbit b : Z.land b 1 = Z.b2z (Z.testbit b 0).
Proof.
  change 1 with (Z.ones 1). rewrite Z.land_ones by done.
  change (2 ^ 1) with 2. by rewrite Z.bit0_mod.
Qed.

Lemma land_2_testbit b : Z.land b 2 = 2 * Z.b2z (Z.testbit b 1).
Proof.
  apply Z.bits_inj'. intros n Hn. rewrite Z.land_spec.
  change 2 with (2 ^ 1) at 1. rewrite Z.pow2_bits_eqb by done.
  destruct (Z.eqb_spec 1 n) as [<-|Hne].
  - rewrite andb_true_r. destruct (Z.testbit b 1); reflexivity.
  - rewrite andb_false_r. destruct (Z.testbit b 1); cbn [Z.b2z].
    + change (2 * 1) with (2 ^ 1). rewrite Z.pow2_bits_eqb by done.
      symmetry. by apply Z.eqb_neq.
    + by rewrite Z.testbit_0_l.
Qed.

Lemma button_held_Left buttons :
  button_held buttons Qt_LeftButton = Z.testbit buttons 0.
Proof.
  unfold button_held, Qt_LeftButton. rewrite land_1_testbit.
  by destruct (Z.testbit buttons 0).
Qed.

Lemma button_held_Right buttons :
  button_held buttons Qt_RightButton = Z.testbit buttons 1.
Proof.
  unfold button_held, Qt_RightButton. rewrite land_2_testbit.
  by destruct (Z.testbit buttons 1).
Qed.

(** X6.  Of the button mask of a pointer press only bit 0 (left) and bit 1
    (right) count: the handler tests exactly these two bits, and a mask with
    any other buttons set as well spawns what its two low bits spawn. *)
Theorem mousePressEvent_buttons_mask pos buttons s :
  button_held buttons Qt_LeftButton = Z.testbit buttons 0 ∧
  button_held buttons Qt_RightButton = Z.testbit buttons 1 ∧
  mousePressEvent pos buttons s = mousePressEvent pos (Z.land buttons 3) s.
Proof.
  split; [apply button_held_Left|]. split; [apply button_held_Right|].
  unfold mousePressEvent.
  rewrite !button_held_Left, !button_held_Right, !Z.land_spec.
  change (Z.testbit 3 0) with true. change (Z.testbit 3 1) with true.
  by rewrite !andb_true_r.
Qed.

(** The middle button alone (mask 4) spawns nothing. *)
Example mousePressEvent_middle_button :
  mousePressEvent pos_example 4 Scene_example = Some Scene_example.
Proof. reflexivity. Qed.

(** ** Further properties: the per-tick bookkeeping *)

(** X11.  Two [postStep] calls in a row on a well-formed scene: the second
    writes the variables the first wrote, the world is as it was, and the
    accelerometer has got both updates, the later one first, each with the
    drone body as it is. *)
Theorem postStep_twice dt1 dt2 s :
  Scene_wf s = true →
  ∃ b s1 s2,
    body_at (world_ s) (drone_ s) = Some b ∧
    postStep dt1 s = Some s1 ∧
    postStep dt2 s1 = Some s2 ∧
    variables_ s2 = variables_ s1 ∧
    world_ s2 = world_ s ∧
    accel_updates (accelerometer_ s2) =
      (dt2, b) :: (dt1, b) :: accel_updates (accelerometer_ s) ∧
    s2 = set_accelerometer (accelerometer_ s2) s1.
Proof.
  intros Hwf. destruct (wf_drone s Hwf) as (b & Hb & _).
  pose proof (postStep_Some dt1 s b Hb (wf_accelerometer s Hwf)) as H1.
  exists b. do 2 eexists. split; [done|]. split; [exact H1|].
  split; [eapply postStep_Some; [exact Hb|reflexivity]|].
  by split_and!.
Qed.

Lemma postStep_twice_witness :
  Scene_wf Scene_example = true ∧
  ∃ b s1 s2,
    body_at (world_ Scene_example) (drone_ Scene_example) = Some b ∧
    postStep (F32.dec 1 60) Scene_example = Some s1 ∧
    postStep (F32.dec 1 30) s1 = Some s2 ∧
    variables_ s2 = variables_ s1 ∧
    world_ s2 = world_ Scene_example ∧
    accel_updates (accelerometer_ s2) =
      (F32.dec 1 30, b) :: (F32.dec 1 60, b) ::
        accel_updates (accelerometer_ Scene_example) ∧
    s2 = set_accelerometer (accelerometer_ s2) s1.
Proof.
  split; [reflexivity|].
  apply (postStep_twice (F32.dec 1 60) (F32.dec 1 30) Scene_example).
  reflexivity.
Defined.

(** X12.  [updateVariables] overwrites: what it leaves does not depend on
    the variables it finds, and running it a second time changes nothing. *)
Theorem updateVariables_overwrites v s :
  updateVariables (set_variables v s) = updateVariables s ∧
  (updateVariables s ≫= updateVariables) = updateVariables s.
Proof.
  unfold updateVariables. cbn [world_ drone_ set_variables].
  destruct (body_at (world_ s) (drone_ s)) as [b|] eqn:Hb; [|done].
  cbn [mbind option_bind world_ drone_ set_variables]. by rewrite Hb.
Qed.

(** ** Further properties: the configuration and the built world *)

(** X13.  Passing the default configuration is passing none; and of a
    configuration only the drone radius reaches the world that is built:
    the move force and the rotate torque are kept for [SceneUi::step] and
    shape nothing. *)
Theorem Scene_new_config_influence Config_default b2FixtureDef_default
    radius force torque force' torque' :
  Scene_new Config_default b2FixtureDef_default (Some Config_default) =
    Scene_new Config_default b2FixtureDef_default None ∧
  world_ <$> Scene_new Config_default b2FixtureDef_default
               (Some (Build_Config radius force torque)) =
    world_ <$> Scene_new Config_default b2FixtureDef_default
                 (Some (Build_Config radius force' torque')).
Proof.
  split; [by destruct Config_default|reflexivity].
Qed.

(** ** Further properties: sequences of operations *)

Section SceneUiSequences.

Context {Painter : Type}.
Variable paint_drone : SceneVariables -> Config -> Painter -> Painter.
Variable paint_camera : Camera -> b2Body -> Painter -> Painter.

Local Abbreviation runs := (run_ops Painter paint_drone paint_camera).

(** X7.  Every sequence of operations of the scene and of its UI succeeds
    on a well-formed scene, and all it can do to the world is push the drone
    and add bodies: the configuration, the extents, the drone handle, the
    sensors' mounting, the gravity and the lights stay, every body but the
    drone is behind its handle as it was, and the drone differs in its
    accumulated force and torque, its awake flag and its sleep timer at
    most. *)
Theorem operations_push_and_spawn_only ops s p :
  Scene_wf s = true →
  ∃ s' p', runs ops (s, p) = Some (s', p') ∧ reach s s'.
Proof using Type.
  intros Hwf.
  destruct (run_ops_reach paint_drone paint_camera ops s p Hwf)
    as (s' & p' & Hrun & Hr & _).
  by exists s', p'.
Qed.

(** X8.  No operation removes a body: after a sequence of operations the
    world holds the bodies it held and one more for every [addBalloon],
    every [addBox] and every button, left or right, held in a pointer
    press. *)
Theorem body_count_after_operations ops s p :
  Scene_wf s = true →
  ∃ s' p',
    runs ops (s, p) = Some (s', p') ∧
    body_count s' = (body_count s + sum_list (spawn_count <$> ops))%nat.
Proof using Type.
  intros Hwf.
  destruct (run_ops_reach paint_drone paint_camera ops s p Hwf)
    as (s' & p' & Hrun & _ & _ & Hn).
  by exists s', p'.
Qed.

(** X9.  From construction on, no sequence of operations fails or breaks
    the scene: the drone handle still addresses the dynamic body with the
    one circle of the configured radius, the sensors are still mounted on
    it, and the wall body and the lights are exactly as built. *)
Theorem arena_stays_as_built Config_default b2FixtureDef_default config ops p :
  ∃ s0 s p' walls drone,
    Scene_new Config_default b2FixtureDef_default config = Some s0 ∧
    runs ops (s0, p) = Some (s, p') ∧
    Scene_wf s = true ∧
    body_at (world_ s0) 0%nat = Some walls ∧
    body_at (world_ s) 0%nat = Some walls ∧
    m_lightList (world_ s) = m_lightList (world_ s0) ∧
    config_ s = config_ s0 ∧
    body_at (world_ s) (drone_ s) = Some drone ∧
    m_type drone = b2_dynamicBody ∧
    m_shape <$> m_fixtureList drone =
      [b2CircleShape (drone_radius (config_ s))].
Proof using Type.
  assert (∃ s0 walls drone0,
             Scene_new Config_default b2FixtureDef_default config = Some s0 ∧
             body_at (world_ s0) 0%nat = Some walls ∧
             drone_ s0 = 1%nat ∧
             body_at (world_ s0) (drone_ s0) = Some drone0 ∧
             m_type drone0 = b2_dynamicBody ∧
             m_shape <$> m_fixtureList drone0 =
               [b2CircleShape (drone_radius (config_ s0))])
    as (s0 & walls & drone0 & Hnew & Hwalls & Hd & Hdrone0 & Hty & Hsh).
  { destruct config as [c|]; do 3 eexists; split_and!; reflexivity. }
  destruct (run_ops_reach paint_drone paint_camera ops s0 p
              (Scene_new_wf _ _ _ _ Hnew))
    as (s & p' & Hrun & Hr & Hwf & _).
  destruct Hr.
  destruct (reach_drone0 _ Hdrone0) as (drone & Hdrone & Hp).
  exists s0, s, p', walls, drone.
  split_and!; try done.
  - apply reach_others0; [by rewrite Hd|done].
  - by rewrite reach_drone_0.
  - rewrite Hp. done.
  - rewrite Hp, reach_config0. done.
Qed.

(** X10.  No operation of the scene or of its UI moves the drone: after
    any sequence of them, [postStep] writes into the variables the readings
    that the drone body had before the sequence.  Only the engine's step
    between two [postStep] calls changes what the variables show. *)
Theorem postStep_after_operations ops dt s p :
  Scene_wf s = true →
  ∃ b s1 p1 s2,
    body_at (world_ s) (drone_ s) = Some b ∧
    runs ops (s, p) = Some (s1, p1) ∧
    postStep dt s1 = Some s2 ∧
    variables_ s2 = body_readings b.
Proof using Type.
  intros Hwf. destruct (wf_drone s Hwf) as (b & Hb & _).
  destruct (run_ops_reach paint_drone paint_camera ops s p Hwf)
    as (s1 & p1 & Hrun & Hr & Hwf1 & _).
  destruct Hr.
  destruct (reach_drone0 _ Hb) as (b1 & Hb1 & Hp).
  rewrite <- reach_drone_0 in Hb1.
  exists b, s1, p1. eexists. split; [done|]. split; [done|].
  split; [by apply postStep_Some, wf_accelerometer|].
  cbn. by apply pushed_readings.
Qed.

End SceneUiSequences.

Lemma operations_push_and_spawn_only_witness :
  Scene_wf Scene_asleep = true ∧
  ∃ s' p',
    run_ops _ paint_drone_example paint_camera_example frame_example
      (Scene_asleep, []) = Some (s', p') ∧
    reach Scene_asleep s'.
Proof.
  split; [reflexivity|].
  apply (operations_push_and_spawn_only paint_drone_example
           paint_camera_example frame_example Scene_asleep []).
  reflexivity.
Defined.

Lemma body_count_after_operations_witness :
  Scene_wf Scene_example = true ∧
  ∃ s' p',
    run_ops _ paint_drone_example paint_camera_example frame_example
      (Scene_example, []) = Some (s', p') ∧
    body_count s' =
      (body_count Scene_example + sum_list (spawn_count <$> frame_example))%nat.
Proof.
  split; [reflexivity|].
  apply (body_count_after_operations paint_drone_example
           paint_camera_example frame_example Scene_example []).
  reflexivity.
Defined.

(** The frame of [frame_example] on the scene as built: two bodies become
    six. *)
Example body_count_scenario :
  (st ← run_ops _ paint_drone_example paint_camera_example frame_example
          (Scene_example, []);
   Some (body_count st.1, length st.2)) = Some (6%nat, 4%nat).
Proof. vm_compute. reflexivity. Qed.

Lemma postStep_after_operations_witness :
  Scene_wf Scene_asleep = true ∧
  ∃ b s1 p1 s2,
    body_at (world_ Scene_asleep) (drone_ Scene_asleep) = Some b ∧
    run_ops _ paint_drone_example paint_camera_example frame_example
      (Scene_asleep, []) = Some (s1, p1) ∧
    postStep (F32.dec 1 60) s1 = Some s2 ∧
    variables_ s2 = body_readings b.
Proof.
  split; [reflexivity|].
  apply (postStep_after_operations paint_drone_example paint_camera_example
           frame_example (F32.dec 1 60) Scene_asleep []).
  reflexivity.
Defined.
